(** * PatientLoginPage: identity resolution and session establishment

    A shallow embedding of [src/pages/PatientLoginPage.tsx].

    The page is a React function component.  Its seven [useState] cells
    become the record [State]; its asynchronous handlers become programs
    of the resumption monad [Prog]: a program either finishes, performs a
    synchronous call on the browser or on React ([Do]), or suspends on a
    promise ([Await]) and resumes with the way the promise settled.  The
    [try]/[catch]/[finally] blocks and the early [return] of the source
    are kept through JavaScript completions ([Result]).

    Modelling boundary.  The Supabase client, the toast hook, the router,
    [console] and [localStorage] are collaborators: a call on them is
    recorded in the trace.  The awaited calls settle as the environment
    decides (resolved with any value, or rejected); the synchronous ones
    return normally.  A JavaScript string is the sequence of its code
    units, one character of [string] per unit, so [String.length] is the
    source's [.length]. *)

From Stdlib Require Import String Ascii List Bool Arith ZArith Lia.
Import ListNotations.
Open Scope string_scope.

Set Warnings "-register-all".

(** ** JavaScript values *)

Module Js.

(** The values that travel between the page and its collaborators:
    what a JSON response can hold, plus [undefined].  The page looks at
    a number only through its truthiness, so integers stand for them. *)
Inductive Value : Type :=
| Undefined
| Null
| Bool (b : bool)
| Num (z : Z)
| Str (s : string)
| Arr (items : list Value)
| Obj (props : list (string * Value)).

(** [!!v]. *)
Definition truthy (v : Value) : bool :=
  match v with
  | Undefined | Null => false
  | Bool b => b
  | Num z => negb (Z.eqb z 0)
  | Str s => negb (String.eqb s EmptyString)
  | Arr _ | Obj _ => true
  end.

Definition nullish (v : Value) : bool :=
  match v with
  | Undefined | Null => true
  | _ => false
  end.

(** [a ?? b]. *)
Definition coalesce (a b : Value) : Value :=
  if nullish a then b else a.

Definition isArray (v : Value) : bool :=
  match v with
  | Arr _ => true
  | _ => false
  end.

Fixpoint lookup (k : string) (props : list (string * Value)) : Value :=
  match props with
  | [] => Undefined
  | (k', v) :: rest => if String.eqb k k' then v else lookup k rest
  end.

(** [v.k] for a [v] that is neither [null] nor [undefined].  The page
    reads the names [data], [error], [user], [session], [email],
    [message], [email_exists], [is_registered], [id], [name] and
    [psychologist_id]; none of them is defined on a primitive or on an
    array, where the read gives [undefined]. *)
Definition field (v : Value) (k : string) : Value :=
  match v with
  | Obj props => lookup k props
  | _ => Undefined
  end.

(** [v?.k]. *)
Definition optField (v : Value) (k : string) : Value :=
  if nullish v then Undefined else field v k.

(** [rows[0]] on an array. *)
Definition first (v : Value) : Value :=
  match v with
  | Arr (x :: _) => x
  | _ => Undefined
  end.

(** [new Error(message)], seen through its [message]. *)
Definition Error (message : string) : Value :=
  Obj [("message", Str message)].

(** The [TypeError] of a property read on [null] or [undefined]. *)
Definition TypeError (k : string) : Value :=
  Obj [("name", Str "TypeError");
       ("message", Str ("Cannot read properties of null or undefined (reading '" ++ k ++ "')"))].

End Js.

(** ** Collaborators *)

(** How an awaited promise settles. *)
Inductive Settled : Type :=
| Resolved (v : Js.Value)
| Rejected (reason : Js.Value).

(** The awaited calls of the page. *)
Inductive Call : Type :=
| Rpc (fn : string) (args : option Js.Value)
| SignUp (email password emailRedirectTo : string)
| SignInWithPassword (email password : string)
| SelectPatientByEmail (email : Js.Value)
| SignOut.

(** The synchronous calls of the page: React setters, and calls on the
    event, the toast hook, the console, the storage and the router. *)
Inductive Effect : Type :=
| PreventDefault
| SetEmail (v : string)
| SetPassword (v : string)
| SetConfirmPassword (v : string)
| SetLoading (v : bool)
| SetIsRegistration (v : bool)
| SetPatientExists (v : bool)
| SetHasMarkedRegistration (v : bool)
| Toast (title : string) (description : Js.Value) (variant : option string)
| ConsoleError (label : string) (err : Js.Value)
| LocalStorageSetItem (key value : string)
| Navigate (path : string).

(** What an observer of the page sees, in order. *)
Inductive Event : Type :=
| Called (c : Call)
| Did (e : Effect).

(** ** Component state *)

Record State : Type := mkState {
  email : string;
  password : string;
  confirmPassword : string;
  loading : bool;
  isRegistration : bool;
  patientExists : bool;
  hasMarkedRegistration : bool
}.

(** The [useState] initial values. *)
Definition initialState : State :=
  mkState EmptyString EmptyString EmptyString false false false false.

Definition apply (e : Effect) (s : State) : State :=
  match e with
  | SetEmail v =>
      mkState v (password s) (confirmPassword s) (loading s)
              (isRegistration s) (patientExists s) (hasMarkedRegistration s)
  | SetPassword v =>
      mkState (email s) v (confirmPassword s) (loading s)
              (isRegistration s) (patientExists s) (hasMarkedRegistration s)
  | SetConfirmPassword v =>
      mkState (email s) (password s) v (loading s)
              (isRegistration s) (patientExists s) (hasMarkedRegistration s)
  | SetLoading v =>
      mkState (email s) (password s) (confirmPassword s) v
              (isRegistration s) (patientExists s) (hasMarkedRegistration s)
  | SetIsRegistration v =>
      mkState (email s) (password s) (confirmPassword s) (loading s)
              v (patientExists s) (hasMarkedRegistration s)
  | SetPatientExists v =>
      mkState (email s) (password s) (confirmPassword s) (loading s)
              (isRegistration s) v (hasMarkedRegistration s)
  | SetHasMarkedRegistration v =>
      mkState (email s) (password s) (confirmPassword s) (loading s)
              (isRegistration s) (patientExists s) v
  | _ => s
  end.

(** The two faces of the form, chosen by [isRegistration]. *)
Inductive FormMode : Type := Login | Registration.

Definition formMode (s : State) : FormMode :=
  if isRegistration s then Registration else Login.

(** ** Asynchronous programs *)

Inductive Prog (A : Type) : Type :=
| Ret (a : A)
| Do (e : Effect) (k : Prog A)
| Await (c : Call) (k : Settled -> Prog A).

Arguments Ret {A} a.
Arguments Do {A} e k.
Arguments Await {A} c k.

Fixpoint pbind {A B} (m : Prog A) (f : A -> Prog B) : Prog B :=
  match m with
  | Ret a => f a
  | Do e k => Do e (pbind k f)
  | Await c k => Await c (fun r => pbind (k r) f)
  end.

(** JavaScript completions: a block ends normally, by [throw], or by
    [return]. *)
Inductive Result (A : Type) : Type :=
| Normal (a : A)
| Thrown (err : Js.Value)
| Returned (v : Js.Value).

Arguments Normal {A} a.
Arguments Thrown {A} err.
Arguments Returned {A} v.

Definition M (A : Type) : Type := Prog (Result A).

Definition ret {A} (a : A) : M A := Ret (Normal a).

Definition bind {A B} (m : M A) (f : A -> M B) : M B :=
  pbind m (fun r =>
    match r with
    | Normal a => f a
    | Thrown err => Ret (Thrown err)
    | Returned v => Ret (Returned v)
    end).

Definition throw {A} (err : Js.Value) : M A := Ret (Thrown err).

Definition return_ {A} (v : Js.Value) : M A := Ret (Returned v).

Definition perform (e : Effect) : M unit := Do e (Ret (Normal tt)).

Definition await (c : Call) : M Js.Value :=
  Await c (fun r =>
    match r with
    | Resolved v => Ret (Normal v)
    | Rejected reason => Ret (Thrown reason)
    end).

(** [try { body } catch (err) { handler err }]. *)
Definition tryCatch {A} (body : M A) (handler : Js.Value -> M A) : M A :=
  pbind body (fun r =>
    match r with
    | Thrown err => handler err
    | other => Ret other
    end).

(** [try { body } finally { final }]: [final] runs on every exit of
    [body], whose completion is kept unless [final] ends abruptly. *)
Definition tryFinally {A} (body : M A) (final : M unit) : M A :=
  pbind body (fun r =>
    pbind final (fun r' =>
      match r' with
      | Normal _ => Ret r
      | Thrown err => Ret (Thrown err)
      | Returned v => Ret (Returned v)
      end)).

Declare Scope js_scope.
Delimit Scope js_scope with js.
Notation "x <- m ;; k" := (bind m (fun x => k))
  (at level 61, m at next level, right associativity) : js_scope.
Notation "m ;; k" := (bind m (fun _ => k))
  (at level 61, right associativity) : js_scope.
Open Scope js_scope.

(** [if (c) throw err;] *)
Definition throwIf (c : bool) (err : Js.Value) : M unit :=
  if c then throw err else ret tt.

(** [v.k], which throws when [v] is [null] or [undefined]. *)
Definition get (v : Js.Value) (k : string) : M Js.Value :=
  if Js.nullish v then throw (Js.TypeError k) else ret (Js.field v k).

(** [const { data, error } = v]. *)
Definition destructure (v : Js.Value) : M (Js.Value * Js.Value) :=
  data <- get v "data" ;;
  error <- get v "error" ;;
  ret (data, error).

(** ** Running a program to completion

    [env] says how each awaited call settles.  The result is the final
    state, the trace in chronological order and the completion. *)

Definition Env : Type := Call -> Settled.

Fixpoint run {A} (p : Prog A) (env : Env) (s : State) : State * list Event * A :=
  match p with
  | Ret a => (s, [], a)
  | Do e k =>
      let '(s', tr, a) := run k env (apply e s) in
      (s', Did e :: tr, a)
  | Await c k =>
      let '(s', tr, a) := run (k (env c)) env s in
      (s', Called c :: tr, a)
  end.

Definition finalState {A} (p : Prog A) (env : Env) (s : State) : State :=
  fst (fst (run p env s)).

Definition trace {A} (p : Prog A) (env : Env) (s : State) : list Event :=
  snd (fst (run p env s)).

Definition completion {A} (p : Prog A) (env : Env) (s : State) : A :=
  snd (run p env s).

(** ** The status resolver *)

(** Lines 45-48: the first row of the response and its two flags. *)
Definition firstRow (data : Js.Value) : Js.Value :=
  let rows := Js.coalesce data (Js.Arr []) in
  if Js.isArray rows then Js.first rows else rows.

Definition emailExistsOf (result : Js.Value) : bool :=
  Js.truthy (Js.optField result "email_exists").

Definition isRegisteredOf (result : Js.Value) : bool :=
  Js.truthy (Js.optField result "is_registered").

Definition checkPatientEmail (emailToCheck : string) : Call :=
  Rpc "check_patient_email" (Some (Js.Obj [("p_email", Js.Str emailToCheck)])).

Definition checkPatientStatus (emailToCheck : string) : M Js.Value :=
  tryCatch
    (response <- await (checkPatientEmail emailToCheck) ;;
     de <- destructure response ;;
     let '(data, error) := de in
     throwIf (Js.truthy error) error ;;
     let result := firstRow data in
     let emailExists := emailExistsOf result in
     let isRegistered := isRegisteredOf result in
     perform (SetPatientExists emailExists) ;;
     perform (SetIsRegistration (if emailExists then negb isRegistered else false)) ;;
     ret result)
    (fun error =>
     perform (ConsoleError "Error checking patient status via RPC:" error) ;;
     perform (SetPatientExists false) ;;
     perform (SetIsRegistration false) ;;
     ret Js.Null).

(** [newEmail.includes('@')]. *)
Fixpoint includesAt (s : string) : bool :=
  match s with
  | EmptyString => false
  | String c rest => if Ascii.eqb c "@"%char then true else includesAt rest
  end.

Definition handleEmailChange (newEmail : string) : M unit :=
  perform (SetEmail newEmail) ;;
  if includesAt newEmail
  then (checkPatientStatus newEmail ;; ret tt)
  else ret tt.

(** The inline notice under the heading (line 215). *)
Definition notFoundNotice (s : State) : bool :=
  negb (patientExists s) && includesAt (email s).

(** The [disabled] attribute of the submit button (line 275). *)
Definition submitDisabled (s : State) : bool :=
  loading s
  || String.eqb (email s) EmptyString
  || String.eqb (password s) EmptyString
  || (isRegistration s
      && (String.eqb (confirmPassword s) EmptyString || negb (patientExists s))).

(** ** The session establisher *)

(** What the handlers take from the browser: [window.location.origin],
    [JSON.stringify], and the string conversion of a template literal. *)
Record Browser : Type := mkBrowser {
  origin : string;
  JSON_stringify : Js.Value -> string;
  ToString : Js.Value -> string
}.

Definition markPatientRegistered : Call :=
  Rpc "mark_patient_registered" None.

(** The closure of a handler holds the state of the render it was
    created in: [s] is that state. *)
Definition handleRegistration (h : Browser) (s : State) : M unit :=
  perform PreventDefault ;;
  perform (SetLoading true) ;;
  tryFinally
    (tryCatch
       (throwIf (negb (String.eqb (password s) (confirmPassword s)))
                (Js.Error "Passwords don't match") ;;
        throwIf (Nat.ltb (String.length (password s)) 6)
                (Js.Error "Password must be at least 6 characters long") ;;
        response <- await (SignUp (email s) (password s)
                                  (origin h ++ "/patient-login")) ;;
        de <- destructure response ;;
        let '(authData, authError) := de in
        throwIf (Js.truthy authError) authError ;;
        user <- get authData "user" ;;
        throwIf (negb (Js.truthy user)) (Js.Error "Registration failed") ;;
        session <- get authData "session" ;;
        (if Js.truthy session
         then
           tryCatch
             (await markPatientRegistered ;; ret tt)
             (fun err =>
              perform (ConsoleError "Error marking patient registered:" err)) ;;
           perform (Toast "Registration successful!"
                          (Js.Str "You're all set. You can now sign in.")
                          None)
         else
           perform (Toast "Confirm your email"
                          (Js.Str "We sent a confirmation link. After confirming, return here to sign in.")
                          None)) ;;
        perform (SetIsRegistration false) ;;
        perform (SetPassword EmptyString) ;;
        perform (SetConfirmPassword EmptyString))
       (fun error =>
        message <- get error "message" ;;
        perform (Toast "Registration Failed" message (Some "destructive"))))
    (perform (SetLoading false)).

(** The object literal of lines 168-173. *)
Definition sessionRecord (id name email psychologist_id : Js.Value) : Js.Value :=
  Js.Obj [("id", id); ("name", name); ("email", email);
          ("psychologist_id", psychologist_id)].

Definition handleLogin (h : Browser) (s : State) : M unit :=
  perform PreventDefault ;;
  perform (SetLoading true) ;;
  tryFinally
    (tryCatch
       (response <- await (SignInWithPassword (email s) (password s)) ;;
        de <- destructure response ;;
        let '(authData, authError) := de in
        throwIf (Js.truthy authError) authError ;;
        user <- get authData "user" ;;
        throwIf (negb (Js.truthy user)) (Js.Error "Authentication failed") ;;
        user' <- get authData "user" ;;
        userEmail <- get user' "email" ;;
        found <- await (SelectPatientByEmail userEmail) ;;
        pe <- destructure found ;;
        let '(patient, patientError) := pe in
        if Js.truthy patientError || negb (Js.truthy patient)
        then
          perform (Toast "Access denied"
                         (Js.Str "You are not registered as a patient in this system.")
                         (Some "destructive")) ;;
          await SignOut ;;
          return_ Js.Undefined
        else
          id <- get patient "id" ;;
          name <- get patient "name" ;;
          pemail <- get patient "email" ;;
          psychologist_id <- get patient "psychologist_id" ;;
          perform (LocalStorageSetItem "patientSession"
                     (JSON_stringify h (sessionRecord id name pemail psychologist_id))) ;;
          name' <- get patient "name" ;;
          perform (Toast "Welcome back!"
                         (Js.Str ("Hello " ++ ToString h name' ++ ", you're now logged in."))
                         None) ;;
          perform (Navigate "/patient-dashboard"))
       (fun error =>
        message <- get error "message" ;;
        perform (Toast "Login Failed" message (Some "destructive"))))
    (perform (SetLoading false)).

(** [onSubmit={isRegistration ? handleRegistration : handleLogin}]. *)
Definition onSubmit (h : Browser) (s : State) : M unit :=
  if isRegistration s then handleRegistration h s else handleLogin h s.

(** ** The auth-state listener *)

(** The callback handed to [setTimeout] (lines 25-32). *)
Definition markRegisteredLater : M unit :=
  tryCatch
    (await markPatientRegistered ;;
     perform (SetHasMarkedRegistration true))
    (fun err =>
     perform (ConsoleError "Error marking patient registered via RPC:" err)).

(** The listener subscribed by the effect (line 23).  It reads the
    [isRegistration] and [hasMarkedRegistration] of its closure: [s] is
    the state of the render whose effect subscribed it.  The result is
    what the listener hands to [setTimeout]. *)
Definition onAuthStateChange (s : State) (event : string) (session : Js.Value)
  : list (M unit) :=
  if String.eqb event "SIGNED_IN" && isRegistration s
     && negb (hasMarkedRegistration s)
  then [markRegisteredLater]
  else [].

(** The dependency array of the effect (line 38): the effect runs again
    after a render in which one of the two cells differs from the render
    of its last run. *)
Definition depsChanged (before after : State) : bool :=
  negb (Bool.eqb (isRegistration before) (isRegistration after))
  || negb (Bool.eqb (hasMarkedRegistration before)
                    (hasMarkedRegistration after)).

(** ** The page as an event loop

    A setter changes [current] at once; the form on screen and the
    handlers it calls belong to the last render and close over
    [rendered]; the listener belongs to the last run of the effect and
    closes over [subscribed].  Besides these, one suspended program per
    promise in flight, the timer queue, and the trace so far. *)

Record Page : Type := mkPage {
  current : State;
  rendered : State;
  subscribed : State;
  awaiting : list (Settled -> M unit);
  timers : list (M unit);
  seen : list Event
}.

(** The page after a render of [s] and the run of its effect, at rest. *)
Definition rendering (s : State) : Page := mkPage s s s [] [] [].

Definition mount : Page := rendering initialState.

(** Runs a program up to its next [await], or to its end. *)
Fixpoint advance (p : M unit) (pg : Page) : Page :=
  match p with
  | Ret _ => pg
  | Do e k =>
      advance k (mkPage (apply e (current pg)) (rendered pg) (subscribed pg)
                        (awaiting pg) (timers pg) (seen pg ++ [Did e]))
  | Await c k =>
      mkPage (current pg) (rendered pg) (subscribed pg)
             (awaiting pg ++ [k]) (timers pg) (seen pg ++ [Called c])
  end.

Fixpoint removeNth {A} (i : nat) (l : list A) : list A :=
  match l, i with
  | [], _ => []
  | _ :: rest, O => rest
  | x :: rest, S j => x :: removeNth j rest
  end.

(** What can happen to the page: the form is submitted, the auth
    service notifies the listener, the next timer runs, the promise at
    position [i] settles, React renders the current state, or the
    effect of the last render runs. *)
Inductive Step : Type :=
| Submit
| AuthStateChange (event : string) (session : Js.Value)
| Timeout
| Settle (i : nat) (r : Settled)
| Render
| RunEffect.

Definition step (h : Browser) (pg : Page) (st : Step) : Page :=
  match st with
  | Submit =>
      if submitDisabled (rendered pg) then pg
      else advance (onSubmit h (rendered pg)) pg
  | AuthStateChange event session =>
      mkPage (current pg) (rendered pg) (subscribed pg) (awaiting pg)
             (timers pg ++ onAuthStateChange (subscribed pg) event session)
             (seen pg)
  | Timeout =>
      match timers pg with
      | [] => pg
      | t :: rest =>
          advance t (mkPage (current pg) (rendered pg) (subscribed pg)
                            (awaiting pg) rest (seen pg))
      end
  | Settle i r =>
      match nth_error (awaiting pg) i with
      | None => pg
      | Some k =>
          advance (k r)
                  (mkPage (current pg) (rendered pg) (subscribed pg)
                          (removeNth i (awaiting pg)) (timers pg) (seen pg))
      end
  | Render =>
      mkPage (current pg) (current pg) (subscribed pg)
             (awaiting pg) (timers pg) (seen pg)
  | RunEffect =>
      if depsChanged (subscribed pg) (rendered pg)
      then mkPage (current pg) (rendered pg) (rendered pg)
                  (awaiting pg) (timers pg) (seen pg)
      else pg
  end.

Definition exec (h : Browser) (pg : Page) (steps : list Step) : Page :=
  fold_left (step h) steps pg.

(** ** Observations on a trace *)

Definition isMarkCall (ev : Event) : bool :=
  match ev with
  | Called (Rpc fn _) => String.eqb fn "mark_patient_registered"
  | _ => false
  end.

Definition markCalls (tr : list Event) : nat :=
  length (filter isMarkCall tr).

Definition isSignUp (ev : Event) : bool :=
  match ev with
  | Called (SignUp _ _ _) => true
  | _ => false
  end.

Definition isCall (ev : Event) : bool :=
  match ev with
  | Called _ => true
  | Did _ => false
  end.

Definition isSelect (ev : Event) : bool :=
  match ev with
  | Called (SelectPatientByEmail _) => true
  | _ => false
  end.

Definition isToast (ev : Event) : bool :=
  match ev with
  | Did (Toast _ _ _) => true
  | _ => false
  end.

Definition isConsoleError (ev : Event) : bool :=
  match ev with
  | Did (ConsoleError _ _) => true
  | _ => false
  end.

Definition isStorageWrite (ev : Event) : bool :=
  match ev with
  | Did (LocalStorageSetItem _ _) => true
  | _ => false
  end.

Definition isNavigate (ev : Event) : bool :=
  match ev with
  | Did (Navigate _) => true
  | _ => false
  end.

Definition isSetter (ev : Event) : bool :=
  match ev with
  | Did (SetEmail _) | Did (SetPassword _) | Did (SetConfirmPassword _)
  | Did (SetLoading _) | Did (SetIsRegistration _) | Did (SetPatientExists _)
  | Did (SetHasMarkedRegistration _) => true
  | _ => false
  end.

(** ** Reading a response *)

(** The error caught by [checkPatientStatus], when the lookup fails:
    the call rejects, its value cannot be destructured, or it carries an
    [error]. *)
Definition thrownByLookup (r : Settled) : option Js.Value :=
  match r with
  | Rejected reason => Some reason
  | Resolved v =>
      if Js.nullish v then Some (Js.TypeError "data")
      else if Js.truthy (Js.field v "error") then Some (Js.field v "error")
      else None
  end.

(** The Patient Status [(emailExists, isRegistered)] carried by a
    response, when the lookup does not fail. *)
Definition patientStatusOf (r : Settled) : option (bool * bool) :=
  match r, thrownByLookup r with
  | Resolved v, None =>
      let result := firstRow (Js.field v "data") in
      Some (emailExistsOf result, isRegisteredOf result)
  | _, _ => None
  end.

(** The response shape of the lookup procedure: a set of rows, each with
    boolean [email_exists] and [is_registered]. *)
Definition wellFormedRow (v : Js.Value) : bool :=
  match v with
  | Js.Obj props =>
      match Js.lookup "email_exists" props, Js.lookup "is_registered" props with
      | Js.Bool _, Js.Bool _ => true
      | _, _ => false
      end
  | _ => false
  end.

Definition wellFormedRows (data : Js.Value) : bool :=
  match data with
  | Js.Arr rows => forallb wellFormedRow rows
  | _ => false
  end.

(** A lookup fails by an error or by a malformed response. *)
Definition lookupFails (r : Settled) : bool :=
  match r, thrownByLookup r with
  | Resolved v, None => negb (wellFormedRows (Js.field v "data"))
  | _, _ => true
  end.

(** The auth service accepts: the response destructures, carries no
    [error], and its [data.user] is [user]. *)
Definition authAccepts (r : Settled) (authData user : Js.Value) : Prop :=
  exists v,
    r = Resolved v /\ Js.nullish v = false
    /\ Js.truthy (Js.field v "error") = false
    /\ authData = Js.field v "data"
    /\ user = Js.field authData "user"
    /\ Js.truthy user = true.

(** The patient store answers with [{ data: patient, error: patientError }]. *)
Definition storeAnswers (r : Settled) (patient patientError : Js.Value) : Prop :=
  exists w,
    r = Resolved w /\ Js.nullish w = false
    /\ patient = Js.field w "data"
    /\ patientError = Js.field w "error".

(** The two checks of lines 76-82. *)
Definition validationFails (s : State) : bool :=
  negb (String.eqb (password s) (confirmPassword s))
  || Nat.ltb (String.length (password s)) 6.

(** The sign-up response on which lines 85-97 throw. *)
Definition signUpThrows (r : Settled) : bool :=
  match r with
  | Rejected _ => true
  | Resolved v =>
      Js.nullish v
      || Js.truthy (Js.field v "error")
      || negb (Js.truthy (Js.field (Js.field v "data") "user"))
  end.

Definition signUpCall (h : Browser) (s : State) : Call :=
  SignUp (email s) (password s) (origin h ++ "/patient-login").

Definition signInCall (s : State) : Call :=
  SignInWithPassword (email s) (password s).

Definition withLoading (v : bool) (s : State) : State := apply (SetLoading v) s.

(** ** Expected traces *)

(** What every login has done once both services have answered. *)
Definition loginPrefix (s : State) (user : Js.Value) : list Event :=
  [Did PreventDefault; Did (SetLoading true);
   Called (signInCall s);
   Called (SelectPatientByEmail (Js.field user "email"))].

(** The denial of lines 158-163. *)
Definition denial : list Event :=
  [Did (Toast "Access denied"
              (Js.Str "You are not registered as a patient in this system.")
              (Some "destructive"));
   Called SignOut].

(** The end of a denied login, by the way the sign-out settles: the
    early [return], or the [catch] block on a rejected sign-out. *)
Definition afterSignOut (signOut : Settled) : list Event * Result unit :=
  match signOut with
  | Resolved _ => ([Did (SetLoading false)], Returned Js.Undefined)
  | Rejected reason =>
      if Js.nullish reason
      then ([Did (SetLoading false)], Thrown (Js.TypeError "message"))
      else ([Did (Toast "Login Failed" (Js.field reason "message")
                        (Some "destructive"));
             Did (SetLoading false)], Normal tt)
  end.

(** Lines 100-115, by the session of the sign-up and the way the
    mark-as-registered call settles. *)
Definition afterSignUp (session : Js.Value) (mark : Settled) : list Event :=
  if Js.truthy session
  then
    (Called markPatientRegistered ::
     match mark with
     | Resolved _ => []
     | Rejected err => [Did (ConsoleError "Error marking patient registered:" err)]
     end ++
     [Did (Toast "Registration successful!"
                 (Js.Str "You're all set. You can now sign in.") None)])%list
  else
    [Did (Toast "Confirm your email"
                (Js.Str "We sent a confirmation link. After confirming, return here to sign in.")
                None)].

(** The state after lines 118-120 and the [finally] block. *)
Definition backToLogin (s : State) : State :=
  withLoading false
    (apply (SetConfirmPassword EmptyString)
       (apply (SetPassword EmptyString)
          (apply (SetIsRegistration false) s))).

(** The settlements that answer the calls of a trace, one at a time. *)
Definition replies (env : Env) (tr : list Event) : list Step :=
  flat_map (fun ev =>
              match ev with
              | Called c => [Settle 0 (env c)]
              | Did _ => []
              end) tr.

(** ** Failures of the session establisher *)

(** The value thrown by lines 139-148 of [handleLogin] and by lines
    85-97 of [handleRegistration] on an answer of the auth service:
    the rejection, the [TypeError] of a destructuring or of the read of
    [user], the [error] of the response, or the handler's own error
    with the message [failure]. *)
Definition thrownByAuth (failure : string) (r : Settled) : option Js.Value :=
  match r with
  | Rejected reason => Some reason
  | Resolved v =>
      if Js.nullish v then Some (Js.TypeError "data")
      else if Js.truthy (Js.field v "error") then Some (Js.field v "error")
      else if Js.nullish (Js.field v "data") then Some (Js.TypeError "user")
      else if Js.truthy (Js.field (Js.field v "data") "user") then None
      else Some (Js.Error failure)
  end.

(** The value thrown by lines 151-155 on an answer of the patient
    store: the rejection, or the [TypeError] of the destructuring. *)
Definition thrownByStore (r : Settled) : option Js.Value :=
  match r with
  | Rejected reason => Some reason
  | Resolved w => if Js.nullish w then Some (Js.TypeError "data") else None
  end.

(** The [catch] and [finally] blocks of a submit handler on the thrown
    value [err]: the read of [err.message] throws on [null] and
    [undefined], and the toast is then not shown. *)
Definition failureTail (title : string) (err : Js.Value)
  : list Event * Result unit :=
  if Js.nullish err
  then ([Did (SetLoading false)], Thrown (Js.TypeError "message"))
  else ([Did (Toast title (Js.field err "message") (Some "destructive"));
         Did (SetLoading false)], Normal tt).

(** The steps that need no user and no answer of a service: an auth
    notification, a timer, a render, a run of the effect. *)
Definition isBackground (st : Step) : bool :=
  match st with
  | AuthStateChange _ _ | Timeout | Render | RunEffect => true
  | Submit | Settle _ _ => false
  end.

(** The guard of the listener (line 24) lets no sign-in through. *)
Definition latched (s : State) : bool :=
  negb (isRegistration s && negb (hasMarkedRegistration s)).

Definition isSignOut (ev : Event) : bool :=
  match ev with
  | Called SignOut => true
  | _ => false
  end.

Definition isLookup (ev : Event) : bool :=
  match ev with
  | Called (Rpc fn (Some _)) => String.eqb fn "check_patient_email"
  | _ => false
  end.

(** ** Outcomes of a submission *)

(** The ways a login can go. *)
Inductive LoginOutcome (h : Browser) (env : Env) (s : State) : Prop :=
| AuthFailed err
    (Hauth : thrownByAuth "Authentication failed" (env (signInCall s)) = Some err)
    (Hrun : run (handleLogin h s) env s =
            (withLoading false s,
             ([Did PreventDefault; Did (SetLoading true); Called (signInCall s)]
              ++ fst (failureTail "Login Failed" err))%list,
             snd (failureTail "Login Failed" err)))
| StoreFailed authData user err
    (Hauth : authAccepts (env (signInCall s)) authData user)
    (Hstore : thrownByStore (env (SelectPatientByEmail (Js.field user "email")))
              = Some err)
    (Hrun : run (handleLogin h s) env s =
            (withLoading false s,
             (loginPrefix s user ++ fst (failureTail "Login Failed" err))%list,
             snd (failureTail "Login Failed" err)))
| Denied authData user patient patientError
    (Hauth : authAccepts (env (signInCall s)) authData user)
    (Hstore : storeAnswers (env (SelectPatientByEmail (Js.field user "email")))
                           patient patientError)
    (Hdenied : Js.truthy patientError || negb (Js.truthy patient) = true)
    (Hrun : run (handleLogin h s) env s =
            (withLoading false s,
             (loginPrefix s user ++ denial ++ fst (afterSignOut (env SignOut)))%list,
             snd (afterSignOut (env SignOut))))
| Enrolled authData user patient patientError
    (Hauth : authAccepts (env (signInCall s)) authData user)
    (Hstore : storeAnswers (env (SelectPatientByEmail (Js.field user "email")))
                           patient patientError)
    (Herror : Js.truthy patientError = false)
    (Hpatient : Js.truthy patient = true)
    (Hrun : exists written greeting,
        run (handleLogin h s) env s =
        (withLoading false s,
         (loginPrefix s user ++
          [Did (LocalStorageSetItem "patientSession" written);
           Did (Toast "Welcome back!" (Js.Str greeting) None);
           Did (Navigate "/patient-dashboard");
           Did (SetLoading false)])%list,
         Normal tt)).

(** The ways a registration can go. *)
Inductive RegistrationOutcome (h : Browser) (env : Env) (s : State) : Prop :=
| Invalid message
    (Hinvalid : validationFails s = true)
    (Hrun : run (handleRegistration h s) env s =
            (withLoading false s,
             [Did PreventDefault; Did (SetLoading true);
              Did (Toast "Registration Failed" (Js.Str message)
                         (Some "destructive"));
              Did (SetLoading false)],
             Normal tt))
| Refused err
    (Hvalid : validationFails s = false)
    (Hauth : thrownByAuth "Registration failed" (env (signUpCall h s)) = Some err)
    (Hrun : run (handleRegistration h s) env s =
            (withLoading false s,
             ([Did PreventDefault; Did (SetLoading true); Called (signUpCall h s)]
              ++ fst (failureTail "Registration Failed" err))%list,
             snd (failureTail "Registration Failed" err)))
| Completed authData user
    (Hvalid : validationFails s = false)
    (Hauth : authAccepts (env (signUpCall h s)) authData user)
    (Hrun : run (handleRegistration h s) env s =
            (backToLogin s,
             ([Did PreventDefault; Did (SetLoading true); Called (signUpCall h s)]
              ++ afterSignUp (Js.field authData "session")
                             (env markPatientRegistered)
              ++ [Did (SetIsRegistration false); Did (SetPassword EmptyString);
                  Did (SetConfirmPassword EmptyString);
                  Did (SetLoading false)])%list,
             Normal tt)).

(** ** Sample data *)

Module Sample.

Definition asText (v : Js.Value) : string :=
  match v with
  | Js.Str s => s
  | Js.Null => "null"
  | _ => "undefined"
  end.

(** A serializer for flat records of strings, enough for the samples. *)
Definition flat (v : Js.Value) : string :=
  match v with
  | Js.Obj props =>
      "{" ++ String.concat "," (map (fun kv => fst kv ++ ":" ++ asText (snd kv)) props) ++ "}"
  | other => asText other
  end.

Definition browser : Browser :=
  mkBrowser "https://aasha.example" flat asText.

Definition ok (data : Js.Value) : Settled :=
  Resolved (Js.Obj [("data", data); ("error", Js.Null)]).

Definition failed (message : string) : Settled :=
  Resolved (Js.Obj [("data", Js.Null); ("error", Js.Error message)]).

Definition row (exists_ registered : bool) : Js.Value :=
  Js.Obj [("email_exists", Js.Bool exists_);
          ("is_registered", Js.Bool registered)].

(** A first row without [is_registered]. *)
Definition rowWithoutFlag : Js.Value :=
  Js.Obj [("email_exists", Js.Bool true)].

Definition registering : State :=
  mkState "new@clinic.com" "secret1" "secret1" false true true false.

Definition mismatched : State :=
  mkState "new@clinic.com" "secret1" "secret2" false true true false.

Definition unknownEmail : State :=
  mkState "a@b.com" "secret1" "secret1" false true false false.

Definition signingIn : State :=
  mkState "pat@clinic.com" "secret1" EmptyString false false true false.

Definition user (mail : string) : Js.Value :=
  Js.Obj [("id", Js.Str "u1"); ("email", Js.Str mail)].

Definition session : Js.Value :=
  Js.Obj [("access_token", Js.Str "token")].

Definition patient : Js.Value :=
  Js.Obj [("id", Js.Str "p1"); ("name", Js.Str "Pat");
          ("email", Js.Str "pat@clinic.com");
          ("psychologist_id", Js.Str "d7");
          ("created_at", Js.Str "2024-01-01")].

(** Sign-up with an immediate session. *)
Definition confirmed : Settled :=
  ok (Js.Obj [("user", user "new@clinic.com"); ("session", session)]).

(** Sign-up with the confirmation pending. *)
Definition pending : Settled :=
  ok (Js.Obj [("user", user "new@clinic.com"); ("session", Js.Null)]).

Definition signedIn : Settled :=
  ok (Js.Obj [("user", user "pat@clinic.com"); ("session", session)]).

(** An environment by service. *)
Definition env (lookup signUp signIn store : Settled) : Env :=
  fun c =>
    match c with
    | Rpc _ (Some _) => lookup
    | Rpc _ None => ok Js.Null
    | SignUp _ _ _ => signUp
    | SignInWithPassword _ _ => signIn
    | SelectPatientByEmail _ => store
    | SignOut => ok Js.Null
    end.

Definition lookupEnv (r : Settled) : Env := env r pending signedIn (ok Js.Null).
Definition signUpEnv (r : Settled) : Env := env (ok (Js.Arr [])) r signedIn (ok Js.Null).
Definition storeEnv (r : Settled) : Env := env (ok (Js.Arr [])) pending signedIn r.

(** The lookup answers with a first row that lacks a flag. *)
Definition malformed : Settled := ok (Js.Arr [rowWithoutFlag]).

(** The store finds no record. *)
Definition noRecord : Env := storeEnv (ok Js.Null).

(** A registration whose sign-in notification reaches the listener
    while the sign-up is in flight. *)
Definition notifiedRegistration : list Step :=
  [Submit;
   AuthStateChange "SIGNED_IN" session;
   Settle 0 confirmed;
   Timeout;
   Settle 0 (ok Js.Null);
   Settle 0 (ok Js.Null)].

End Sample.

(** * Properties *)

(** ** Running programs *)

Lemma run_pbind {A B} (m : Prog A) (f : A -> Prog B) env s :
  run (pbind m f) env s =
  let '(s1, t1, a) := run m env s in
  let '(s2, t2, b) := run (f a) env s1 in
  (s2, (t1 ++ t2)%list, b).
Proof.
  revert s. induction m as [a | e k IH | c k IH]; intros s; cbn.
  - destruct (run (f a) env s) as [[s2 t2] b]. reflexivity.
  - rewrite IH. destruct (run k env (apply e s)) as [[s1 t1] a].
    destruct (run (f a) env s1) as [[s2 t2] b]. reflexivity.
  - rewrite IH. destruct (run (k (env c)) env s) as [[s1 t1] a].
    destruct (run (f a) env s1) as [[s2 t2] b]. reflexivity.
Qed.

Ltac unfold_js :=
  unfold destructure, get, throwIf, perform, await, tryCatch, tryFinally,
         bind, ret, throw, return_.

Ltac use_facts :=
  repeat match goal with
         | H : ?x = _ |- context [?x] => rewrite H
         end.

(** Runs the program of the goal as far as the facts at hand decide. *)
Ltac js :=
  repeat (progress (unfold_js;
                    cbn -[Nat.ltb String.eqb String.length append step
                          submitDisabled];
                    use_facts)).

(** ** The status resolver *)

Lemma checkPatientStatus_caught em env s err :
  thrownByLookup (env (checkPatientEmail em)) = Some err ->
  run (checkPatientStatus em) env s =
  (apply (SetIsRegistration false) (apply (SetPatientExists false) s),
   [Called (checkPatientEmail em);
    Did (ConsoleError "Error checking patient status via RPC:" err);
    Did (SetPatientExists false); Did (SetIsRegistration false)],
   Normal Js.Null).
Proof.
  unfold thrownByLookup, checkPatientStatus.
  destruct (env (checkPatientEmail em)) as [v | reason] eqn:Hr.
  - destruct (Js.nullish v) eqn:Hn.
    + intros [= <-]. js. reflexivity.
    + destruct (Js.truthy (Js.field v "error")) eqn:Ht.
      * intros [= <-]. js. reflexivity.
      * discriminate.
  - intros [= <-]. js. reflexivity.
Qed.

Lemma checkPatientStatus_read em env s v :
  env (checkPatientEmail em) = Resolved v ->
  thrownByLookup (Resolved v) = None ->
  let result := firstRow (Js.field v "data") in
  let emailExists := emailExistsOf result in
  let isRegistered := isRegisteredOf result in
  run (checkPatientStatus em) env s =
  (apply (SetIsRegistration (if emailExists then negb isRegistered else false))
         (apply (SetPatientExists emailExists) s),
   [Called (checkPatientEmail em);
    Did (SetPatientExists emailExists);
    Did (SetIsRegistration (if emailExists then negb isRegistered else false))],
   Normal result).
Proof.
  unfold thrownByLookup, checkPatientStatus. intros Hr.
  destruct (Js.nullish v) eqn:Hn; [discriminate |].
  destruct (Js.truthy (Js.field v "error")) eqn:Ht; [discriminate |].
  intros _. js. reflexivity.
Qed.

(** The state after a lookup, by the Patient Status of the response. *)
Lemma checkPatientStatus_state em env s :
  finalState (checkPatientStatus em) env s =
  match patientStatusOf (env (checkPatientEmail em)) with
  | Some (emailExists, isRegistered) =>
      apply (SetIsRegistration (if emailExists then negb isRegistered else false))
            (apply (SetPatientExists emailExists) s)
  | None =>
      apply (SetIsRegistration false) (apply (SetPatientExists false) s)
  end.
Proof.
  unfold finalState, patientStatusOf.
  destruct (thrownByLookup (env (checkPatientEmail em))) as [err |] eqn:Ht.
  - rewrite (checkPatientStatus_caught em env s err Ht).
    destruct (env (checkPatientEmail em)); [rewrite Ht |]; reflexivity.
  - destruct (env (checkPatientEmail em)) as [v | reason] eqn:Hr.
    + rewrite (checkPatientStatus_read em env s v Hr Ht), Ht. reflexivity.
    + discriminate.
Qed.

(** C1: after a lookup the form is in Registration mode exactly when the
    response carries emailExists = true and isRegistered = false, and in
    Login mode for every other response, the failed ones included; on a
    response whose first row has boolean flags, these are the flags. *)
Theorem C1_form_mode_of_lookup (em : string) (env : Env) (s : State) :
  let r := env (checkPatientEmail em) in
  let s' := finalState (checkPatientStatus em) env s in
  (formMode s' = Registration <-> patientStatusOf r = Some (true, false))
  /\ (formMode s' = Login <-> patientStatusOf r <> Some (true, false))
  /\ (forall v props rest emailExists isRegistered,
         r = Resolved v ->
         thrownByLookup r = None ->
         Js.field v "data" = Js.Arr (Js.Obj props :: rest) ->
         Js.lookup "email_exists" props = Js.Bool emailExists ->
         Js.lookup "is_registered" props = Js.Bool isRegistered ->
         patientStatusOf r = Some (emailExists, isRegistered)).
Proof.
  intros r s'. subst s'. rewrite checkPatientStatus_state. fold r.
  clearbody r. split; [| split].
  - destruct (patientStatusOf r) as [[[|] [|]] |]; cbn;
      split; intros H; (reflexivity || discriminate).
  - destruct (patientStatusOf r) as [[[|] [|]] |]; cbn;
      split; intros H; try reflexivity; try discriminate; try congruence.
  - intros v props rest e g Hr Ht Hd He Hg.
    subst r. unfold patientStatusOf. rewrite Ht, Hd.
    unfold firstRow, emailExistsOf, isRegisteredOf. cbn. rewrite He, Hg.
    reflexivity.
Qed.

(** C7, amended: a lookup that fails by an error (the call rejects, its
    value cannot be destructured, or it carries an error) resets Patient
    Status to false/false, which is Login mode with the not-found notice
    for an email with an at sign; the error is logged on the console and
    no message is shown.  A response without an error is never logged,
    whatever its shape: [patientExists] becomes the truthiness of the
    first row's [email_exists], and [isRegistration] becomes true
    exactly when [email_exists] is truthy and [is_registered] is not; a
    first row that is missing or is not an object gives false/false. *)
Theorem C7_lookup_error_fails_closed (em : string) (env : Env) (s : State) :
  let r := env (checkPatientEmail em) in
  let s' := finalState (checkPatientStatus em) env s in
  let tr := trace (checkPatientStatus em) env s in
  existsb isToast tr = false
  /\ match thrownByLookup r with
     | Some err =>
         patientExists s' = false
         /\ isRegistration s' = false
         /\ formMode s' = Login
         /\ notFoundNotice s' = includesAt (email s)
         /\ tr = [Called (checkPatientEmail em);
                  Did (ConsoleError "Error checking patient status via RPC:" err);
                  Did (SetPatientExists false); Did (SetIsRegistration false)]
     | None =>
         existsb isConsoleError tr = false
         /\ exists v,
              r = Resolved v
              /\ patientExists s' = emailExistsOf (firstRow (Js.field v "data"))
              /\ isRegistration s' =
                 emailExistsOf (firstRow (Js.field v "data"))
                 && negb (isRegisteredOf (firstRow (Js.field v "data")))
              /\ (patientExists s' = false -> isRegistration s' = false)
              /\ match firstRow (Js.field v "data") with
                 | Js.Obj props =>
                     patientExists s' = Js.truthy (Js.lookup "email_exists" props)
                     /\ isRegistration s' =
                        Js.truthy (Js.lookup "email_exists" props)
                        && negb (Js.truthy (Js.lookup "is_registered" props))
                 | _ => patientExists s' = false /\ isRegistration s' = false
                 end
     end.
Proof.
  intros r s' tr. subst s' tr. unfold finalState, trace.
  destruct (thrownByLookup r) as [err |] eqn:Ht; subst r.
  - rewrite (checkPatientStatus_caught em env s err Ht). cbn.
    unfold formMode, notFoundNotice. cbn. repeat split.
  - destruct (env (checkPatientEmail em)) as [v | reason] eqn:Hr;
      [| discriminate].
    rewrite (checkPatientStatus_read em env s v Hr Ht). cbn.
    repeat split. exists v.
    split; [reflexivity |]. split; [reflexivity |].
    split; [destruct (emailExistsOf (firstRow (Js.field v "data")));
            reflexivity |].
    split; [intros ->; reflexivity |].
    unfold emailExistsOf, isRegisteredOf.
    destruct (firstRow (Js.field v "data")) as [| | b | z | t | items | props];
      cbn; split; reflexivity.
Qed.

(** C7 as stated fails: a first row without [is_registered] is a
    malformed response, yet the page turns to Registration mode for it
    and logs nothing. *)
Lemma C7_malformed_row_not_reset :
  Sample.lookupEnv Sample.malformed (checkPatientEmail "new@clinic.com")
  = Sample.malformed
  /\ lookupFails Sample.malformed = true
  /\ patientExists
       (finalState (checkPatientStatus "new@clinic.com")
                   (Sample.lookupEnv Sample.malformed) initialState) = true
  /\ isRegistration
       (finalState (checkPatientStatus "new@clinic.com")
                   (Sample.lookupEnv Sample.malformed) initialState) = true
  /\ existsb isConsoleError
       (trace (checkPatientStatus "new@clinic.com")
              (Sample.lookupEnv Sample.malformed) initialState) = false.
Proof. repeat split. Qed.

(** ** The submit control *)

(** The submit control is enabled exactly when nothing is loading, the
    email and the password are not empty and, in Registration mode,
    the confirmation is not empty and the email is a known one. *)
Lemma submitDisabled_false_iff (s : State) :
  submitDisabled s = false <->
  loading s = false
  /\ email s <> EmptyString
  /\ password s <> EmptyString
  /\ (formMode s = Registration ->
      confirmPassword s <> EmptyString /\ patientExists s = true).
Proof.
  unfold submitDisabled, formMode.
  destruct (loading s), (String.eqb_spec (email s) EmptyString) as [He | He],
    (String.eqb_spec (password s) EmptyString) as [Hp | Hp],
    (isRegistration s),
    (String.eqb_spec (confirmPassword s) EmptyString) as [Hc | Hc],
    (patientExists s); cbn; split;
    try discriminate; try reflexivity;
    try (intros (H1 & H2 & H3 & H4); try discriminate; try contradiction;
         try (destruct (H4 eq_refl) as [H5 H6];
              try discriminate; contradiction));
    try (intros _; repeat split; try assumption; try discriminate;
         intros H; discriminate).
Qed.

(** C5: the submit control is disabled whenever the email or the
    password is empty and, in Registration mode, whenever the
    confirmation is empty or the email is not a known one, whatever the
    other fields hold. *)
Theorem C5_submit_disabled_unless_complete (s : State) :
  email s = EmptyString
  \/ password s = EmptyString
  \/ (formMode s = Registration
      /\ (confirmPassword s = EmptyString \/ patientExists s = false)) ->
  submitDisabled s = true.
Proof.
  unfold submitDisabled, formMode.
  intros [H | [H | [Hm [H | H]]]]; try rewrite H; cbn.
  - now rewrite orb_true_r.
  - now rewrite !orb_true_r.
  - destruct (isRegistration s); [| discriminate]. cbn. now rewrite !orb_true_r.
  - destruct (isRegistration s); [| discriminate]. cbn. now rewrite !orb_true_r.
Qed.

Lemma C5_unknown_email_witness :
  formMode Sample.unknownEmail = Registration
  /\ patientExists Sample.unknownEmail = false
  /\ submitDisabled Sample.unknownEmail = true.
Proof.
  split; [reflexivity |]. split; [reflexivity |].
  apply (C5_submit_disabled_unless_complete Sample.unknownEmail).
  right. right. split; [reflexivity |]. right. reflexivity.
Defined.

(** ** Login *)

Lemma truthy_not_nullish v : Js.truthy v = true -> Js.nullish v = false.
Proof. destruct v; cbn; intros H; (reflexivity || discriminate). Qed.

Lemma field_truthy_not_nullish v k :
  Js.truthy (Js.field v k) = true -> Js.nullish v = false.
Proof. destruct v; cbn; intros H; (reflexivity || discriminate). Qed.

Lemma handleLogin_denied h env s authData user patient patientError :
  authAccepts (env (signInCall s)) authData user ->
  storeAnswers (env (SelectPatientByEmail (Js.field user "email")))
               patient patientError ->
  Js.truthy patientError || negb (Js.truthy patient) = true ->
  run (handleLogin h s) env s =
  (withLoading false s,
   (loginPrefix s user ++ denial ++ fst (afterSignOut (env SignOut)))%list,
   snd (afterSignOut (env SignOut))).
Proof.
  intros (v & Hr & Hn & He & -> & -> & Hu) (w & Hw & Hwn & -> & ->) Hd.
  pose proof (field_truthy_not_nullish _ _ Hu) as Hdn.
  pose proof (truthy_not_nullish _ Hu) as Hun.
  unfold signInCall in Hr.
  unfold handleLogin, afterSignOut, loginPrefix, signInCall.
  js.
  destruct (env SignOut) as [x | reason] eqn:Hs; js; [reflexivity |].
  destruct (Js.nullish reason) eqn:Hrn; js; reflexivity.
Qed.

Lemma handleLogin_enrolled h env s authData user patient patientError :
  authAccepts (env (signInCall s)) authData user ->
  storeAnswers (env (SelectPatientByEmail (Js.field user "email")))
               patient patientError ->
  Js.truthy patientError = false ->
  Js.truthy patient = true ->
  run (handleLogin h s) env s =
  (withLoading false s,
   (loginPrefix s user ++
    [Did (LocalStorageSetItem "patientSession"
            (JSON_stringify h
               (sessionRecord (Js.field patient "id")
                              (Js.field patient "name")
                              (Js.field patient "email")
                              (Js.field patient "psychologist_id"))));
     Did (Toast "Welcome back!"
                (Js.Str ("Hello " ++ ToString h (Js.field patient "name")
                                  ++ ", you're now logged in."))
                None);
     Did (Navigate "/patient-dashboard");
     Did (SetLoading false)])%list,
   Normal tt).
Proof.
  intros (v & Hr & Hn & He & -> & -> & Hu) (w & Hw & Hwn & -> & ->) Hpe Hp.
  pose proof (field_truthy_not_nullish _ _ Hu) as Hdn.
  pose proof (truthy_not_nullish _ Hu) as Hun.
  pose proof (truthy_not_nullish _ Hp) as Hpn.
  unfold signInCall in Hr. unfold handleLogin, loginPrefix, signInCall.
  js. reflexivity.
Qed.

(** What a denied login shows, whatever the sign-out does. *)
Lemma denied_trace s user signOut :
  let tr := (loginPrefix s user ++ denial ++ fst (afterSignOut signOut))%list in
  In (Called SignOut) tr
  /\ In (Did (Toast "Access denied"
                    (Js.Str "You are not registered as a patient in this system.")
                    (Some "destructive"))) tr
  /\ existsb isStorageWrite tr = false
  /\ existsb isNavigate tr = false
  /\ length (filter isSelect tr) = 1.
Proof.
  destruct signOut as [x | reason]; [| destruct (Js.nullish reason) eqn:Hn];
    unfold afterSignOut; try rewrite Hn; cbn; intuition.
Qed.

(** C3: when the credentials are accepted and the store answers without
    a record, the login shows the access-denied message and signs out;
    nothing is written to the local storage and nothing navigates. *)
Theorem C3_login_without_record_denied
        (h : Browser) (env : Env) (s : State)
        (authData user patient patientError : Js.Value) :
  authAccepts (env (signInCall s)) authData user ->
  storeAnswers (env (SelectPatientByEmail (Js.field user "email")))
               patient patientError ->
  Js.truthy patientError = false ->
  Js.truthy patient = false ->
  let tr := trace (handleLogin h s) env s in
  (exists rest, tr = (loginPrefix s user ++ denial ++ rest)%list)
  /\ In (Called SignOut) tr
  /\ In (Did (Toast "Access denied"
                    (Js.Str "You are not registered as a patient in this system.")
                    (Some "destructive"))) tr
  /\ existsb isStorageWrite tr = false
  /\ existsb isNavigate tr = false.
Proof.
  intros Ha Hs He Hp tr. subst tr. unfold trace.
  rewrite (handleLogin_denied h env s authData user patient patientError Ha Hs)
    by (rewrite He, Hp; reflexivity).
  cbn [fst snd].
  destruct (denied_trace s user (env SignOut)) as (H1 & H2 & H3 & H4 & _).
  split; [eexists; reflexivity |]. auto.
Qed.

Lemma C3_witness :
  In (Called SignOut)
     (trace (handleLogin Sample.browser Sample.signingIn)
            Sample.noRecord Sample.signingIn)
  /\ existsb isStorageWrite
       (trace (handleLogin Sample.browser Sample.signingIn)
              Sample.noRecord Sample.signingIn) = false
  /\ existsb isNavigate
       (trace (handleLogin Sample.browser Sample.signingIn)
              Sample.noRecord Sample.signingIn) = false.
Proof.
  destruct (C3_login_without_record_denied
              Sample.browser Sample.noRecord Sample.signingIn
              (Js.Obj [("user", Sample.user "pat@clinic.com");
                       ("session", Sample.session)])
              (Sample.user "pat@clinic.com") Js.Null Js.Null)
    as (_ & H1 & _ & H2 & H3).
  - eexists. repeat split; reflexivity.
  - eexists. repeat split; reflexivity.
  - reflexivity.
  - reflexivity.
  - repeat split; assumption.
Defined.

(** C4: when the credentials are accepted and the store answers with a
    record, the login writes under the key patientSession the
    serialization of the object made of exactly the record's id, name,
    email and psychologist_id, greets the patient, and navigates to
    /patient-dashboard. *)
Theorem C4_login_with_record_opens_session
        (h : Browser) (env : Env) (s : State)
        (authData user patient patientError : Js.Value) :
  authAccepts (env (signInCall s)) authData user ->
  storeAnswers (env (SelectPatientByEmail (Js.field user "email")))
               patient patientError ->
  Js.truthy patientError = false ->
  Js.truthy patient = true ->
  trace (handleLogin h s) env s =
  (loginPrefix s user ++
   [Did (LocalStorageSetItem "patientSession"
           (JSON_stringify h
              (Js.Obj [("id", Js.field patient "id");
                       ("name", Js.field patient "name");
                       ("email", Js.field patient "email");
                       ("psychologist_id", Js.field patient "psychologist_id")])));
    Did (Toast "Welcome back!"
               (Js.Str ("Hello " ++ ToString h (Js.field patient "name")
                                 ++ ", you're now logged in."))
               None);
    Did (Navigate "/patient-dashboard");
    Did (SetLoading false)])%list.
Proof.
  intros Ha Hs He Hp. unfold trace.
  rewrite (handleLogin_enrolled h env s authData user patient patientError
                                Ha Hs He Hp).
  reflexivity.
Qed.

Lemma C4_witness :
  trace (handleLogin Sample.browser Sample.signingIn)
        (Sample.storeEnv (Sample.ok Sample.patient)) Sample.signingIn =
  [Did PreventDefault; Did (SetLoading true);
   Called (SignInWithPassword "pat@clinic.com" "secret1");
   Called (SelectPatientByEmail (Js.Str "pat@clinic.com"));
   Did (LocalStorageSetItem "patientSession"
          "{id:p1,name:Pat,email:pat@clinic.com,psychologist_id:d7}");
   Did (Toast "Welcome back!" (Js.Str "Hello Pat, you're now logged in.") None);
   Did (Navigate "/patient-dashboard");
   Did (SetLoading false)].
Proof.
  apply (C4_login_with_record_opens_session
           Sample.browser (Sample.storeEnv (Sample.ok Sample.patient))
           Sample.signingIn
           (Js.Obj [("user", Sample.user "pat@clinic.com");
                    ("session", Sample.session)])
           (Sample.user "pat@clinic.com") Sample.patient Js.Null).
  - eexists. repeat split; reflexivity.
  - eexists. repeat split; reflexivity.
  - reflexivity.
  - reflexivity.
Defined.

(** C9: when the credentials are accepted and the store answers with an
    error, the login runs exactly as it does for an absent record: the
    access-denied message, the sign-out, no write to the local storage
    and no navigation; the store is asked once, and when the sign-out
    resolves no login-failure message is shown. *)
Theorem C9_store_error_treated_as_no_record
        (h : Browser) (env env' : Env) (s : State)
        (authData user patient patientError : Js.Value) :
  authAccepts (env (signInCall s)) authData user ->
  storeAnswers (env (SelectPatientByEmail (Js.field user "email")))
               patient patientError ->
  Js.truthy patientError = true ->
  env' (signInCall s) = env (signInCall s) ->
  env' SignOut = env SignOut ->
  storeAnswers (env' (SelectPatientByEmail (Js.field user "email")))
               Js.Null Js.Null ->
  let tr := trace (handleLogin h s) env s in
  run (handleLogin h s) env s = run (handleLogin h s) env' s
  /\ (exists rest, tr = (loginPrefix s user ++ denial ++ rest)%list)
  /\ In (Called SignOut) tr
  /\ existsb isStorageWrite tr = false
  /\ existsb isNavigate tr = false
  /\ length (filter isSelect tr) = 1
  /\ (forall x, env SignOut = Resolved x ->
      tr = (loginPrefix s user ++ denial ++ [Did (SetLoading false)])%list).
Proof.
  intros Ha Hs He Hi Ho Hs' tr. subst tr. unfold trace.
  assert (Ha' : authAccepts (env' (signInCall s)) authData user)
    by (rewrite Hi; exact Ha).
  rewrite (handleLogin_denied h env' s authData user Js.Null Js.Null Ha' Hs')
    by reflexivity.
  rewrite (handleLogin_denied h env s authData user patient patientError Ha Hs)
    by (rewrite He; reflexivity).
  rewrite Ho. cbn [fst snd].
  destruct (denied_trace s user (env SignOut)) as (H1 & H2 & H3 & H4 & H5).
  split; [reflexivity |]. split; [eexists; reflexivity |].
  repeat (split; [assumption |]).
  intros x Hx. rewrite Hx. reflexivity.
Qed.

Lemma C9_witness :
  run (handleLogin Sample.browser Sample.signingIn)
      (Sample.storeEnv (Sample.failed "permission denied for table patients"))
      Sample.signingIn =
  run (handleLogin Sample.browser Sample.signingIn)
      (Sample.storeEnv (Sample.ok Js.Null))
      Sample.signingIn.
Proof.
  apply (C9_store_error_treated_as_no_record
           Sample.browser
           (Sample.storeEnv (Sample.failed "permission denied for table patients"))
           (Sample.storeEnv (Sample.ok Js.Null))
           Sample.signingIn
           (Js.Obj [("user", Sample.user "pat@clinic.com");
                    ("session", Sample.session)])
           (Sample.user "pat@clinic.com")
           Js.Null (Js.Error "permission denied for table patients")).
  - eexists. repeat split; reflexivity.
  - eexists. repeat split; reflexivity.
  - reflexivity.
  - reflexivity.
  - reflexivity.
  - eexists. repeat split; reflexivity.
Defined.

(** ** Registration *)

(** The sign-up responses split in two: those on which the handler
    throws, and those the auth service accepts. *)
Lemma signUpThrows_false_iff r :
  signUpThrows r = false <-> exists authData user, authAccepts r authData user.
Proof.
  unfold signUpThrows, authAccepts. split.
  - destruct r as [v | reason]; [| discriminate].
    intros H. apply orb_false_elim in H. destruct H as [H Hu].
    apply orb_false_elim in H. destruct H as [Hn He].
    apply negb_false_iff in Hu.
    exists (Js.field v "data"), (Js.field (Js.field v "data") "user"), v.
    repeat split; assumption.
  - intros (authData & user & v & -> & Hn & He & -> & -> & Hu).
    rewrite Hn, He, Hu. reflexivity.
Qed.

Lemma handleRegistration_completed h env s authData user :
  validationFails s = false ->
  authAccepts (env (signUpCall h s)) authData user ->
  run (handleRegistration h s) env s =
  (backToLogin s,
   ([Did PreventDefault; Did (SetLoading true); Called (signUpCall h s)]
    ++ afterSignUp (Js.field authData "session") (env markPatientRegistered)
    ++ [Did (SetIsRegistration false); Did (SetPassword EmptyString);
        Did (SetConfirmPassword EmptyString); Did (SetLoading false)])%list,
   Normal tt).
Proof.
  unfold validationFails.
  intros Hv (v & Hr & Hn & He & -> & -> & Hu).
  apply orb_false_elim in Hv. destruct Hv as [Hm Hl].
  apply negb_false_iff in Hm.
  pose proof (field_truthy_not_nullish _ _ Hu) as Hdn.
  unfold signUpCall in Hr.
  unfold handleRegistration, afterSignUp, backToLogin, withLoading, signUpCall.
  js.
  destruct (Js.truthy (Js.field (Js.field v "data") "session")) eqn:Hs; js;
    [| reflexivity].
  destruct (env markPatientRegistered) as [x | err] eqn:Hk;
    unfold markPatientRegistered in Hk; js; reflexivity.
Qed.

Lemma handleRegistration_failed h env s :
  validationFails s || signUpThrows (env (signUpCall h s)) = true ->
  finalState (handleRegistration h s) env s = withLoading false s
  /\ filter isSetter (trace (handleRegistration h s) env s)
     = [Did (SetLoading true); Did (SetLoading false)].
Proof.
  unfold validationFails, signUpThrows, signUpCall, finalState, trace,
         handleRegistration.
  destruct (String.eqb (password s) (confirmPassword s)) eqn:Hm;
    [| intros _; js; split; reflexivity].
  destruct (Nat.ltb (String.length (password s)) 6) eqn:Hl;
    [intros _; js; split; reflexivity |].
  cbn [negb orb].
  destruct (env (SignUp (email s) (password s) (origin h ++ "/patient-login")))
    as [v | reason] eqn:Hr.
  - destruct (Js.nullish v) eqn:Hn; [intros _; js; split; reflexivity |].
    destruct (Js.truthy (Js.field v "error")) eqn:He.
    + pose proof (truthy_not_nullish _ He) as Hen.
      intros _; js; split; reflexivity.
    + destruct (Js.nullish (Js.field v "data")) eqn:Hdn;
        [intros _; js; split; reflexivity |].
      destruct (Js.truthy (Js.field (Js.field v "data") "user")) eqn:Hu;
        [discriminate |].
      intros _; js; split; reflexivity.
  - intros _.
    destruct (Js.nullish reason) eqn:Hn; js; split; reflexivity.
Qed.

(** C6: a registration whose password differs from its confirmation, or
    is shorter than 6, shows the validation message and stops: the trace
    holds no call to the auth service, nor any other awaited call. *)
Theorem C6_invalid_password_never_signs_up
        (h : Browser) (env : Env) (s : State) :
  password s <> confirmPassword s \/ String.length (password s) < 6 ->
  exists message,
    (message = "Passwords don't match"
     \/ message = "Password must be at least 6 characters long")
    /\ trace (handleRegistration h s) env s =
       [Did PreventDefault; Did (SetLoading true);
        Did (Toast "Registration Failed" (Js.Str message) (Some "destructive"));
        Did (SetLoading false)]
    /\ existsb isSignUp (trace (handleRegistration h s) env s) = false
    /\ existsb isCall (trace (handleRegistration h s) env s) = false.
Proof.
  intros H. unfold trace, handleRegistration.
  destruct (String.eqb (password s) (confirmPassword s)) eqn:He.
  - assert (Hl : Nat.ltb (String.length (password s)) 6 = true).
    { destruct H as [H | H].
      - apply String.eqb_eq in He. contradiction.
      - now apply Nat.ltb_lt. }
    clear H. eexists. split; [right; reflexivity |]. js. repeat split.
  - clear H. eexists. split; [left; reflexivity |]. js. repeat split.
Qed.

Lemma C6_witness :
  password Sample.mismatched <> confirmPassword Sample.mismatched
  /\ existsb isSignUp
       (trace (handleRegistration Sample.browser Sample.mismatched)
              (Sample.signUpEnv Sample.confirmed) Sample.mismatched) = false.
Proof.
  split; [discriminate |].
  destruct (C6_invalid_password_never_signs_up
              Sample.browser (Sample.signUpEnv Sample.confirmed)
              Sample.mismatched)
    as (message & _ & _ & H & _).
  - left. discriminate.
  - exact H.
Defined.

(** C8: a registration that completes, with an immediate session or
    with the confirmation pending, leaves the form in Login mode with
    the password and its confirmation empty. *)
Theorem C8_registration_outcome_resets_form
        (h : Browser) (env : Env) (s : State) (authData user : Js.Value) :
  validationFails s = false ->
  authAccepts (env (signUpCall h s)) authData user ->
  let s' := finalState (handleRegistration h s) env s in
  let tr := trace (handleRegistration h s) env s in
  formMode s' = Login
  /\ password s' = EmptyString
  /\ confirmPassword s' = EmptyString
  /\ (if Js.truthy (Js.field authData "session")
      then In (Did (Toast "Registration successful!"
                          (Js.Str "You're all set. You can now sign in.")
                          None)) tr
      else In (Did (Toast "Confirm your email"
                          (Js.Str "We sent a confirmation link. After confirming, return here to sign in.")
                          None)) tr).
Proof.
  intros Hv Ha s' tr. subst s' tr. unfold finalState, trace.
  rewrite (handleRegistration_completed h env s authData user Hv Ha).
  cbn [fst snd]. repeat split.
  unfold afterSignUp.
  destruct (Js.truthy (Js.field authData "session")).
  - destruct (env markPatientRegistered); cbn; intuition.
  - cbn. intuition.
Qed.

Lemma C8_witness :
  (formMode (finalState (handleRegistration Sample.browser Sample.registering)
                        (Sample.signUpEnv Sample.confirmed) Sample.registering)
   = Login)
  /\ (formMode (finalState (handleRegistration Sample.browser Sample.registering)
                           (Sample.signUpEnv Sample.pending) Sample.registering)
      = Login).
Proof.
  split.
  - apply (C8_registration_outcome_resets_form
             Sample.browser (Sample.signUpEnv Sample.confirmed)
             Sample.registering
             (Js.Obj [("user", Sample.user "new@clinic.com");
                      ("session", Sample.session)])
             (Sample.user "new@clinic.com")).
    + reflexivity.
    + eexists. repeat split; reflexivity.
  - apply (C8_registration_outcome_resets_form
             Sample.browser (Sample.signUpEnv Sample.pending)
             Sample.registering
             (Js.Obj [("user", Sample.user "new@clinic.com");
                      ("session", Js.Null)])
             (Sample.user "new@clinic.com")).
    + reflexivity.
    + eexists. repeat split; reflexivity.
Defined.

(** C10: a registration that fails, in its validation or at the auth
    service, leaves every state cell but loading as it was: the mode
    stays Registration, and the only setters called are those of
    loading, on and then off. *)
Theorem C10_failed_registration_keeps_state
        (h : Browser) (env : Env) (s : State) :
  validationFails s || signUpThrows (env (signUpCall h s)) = true ->
  let s' := finalState (handleRegistration h s) env s in
  s' = withLoading false s
  /\ (formMode s = Registration -> formMode s' = Registration)
  /\ email s' = email s
  /\ password s' = password s
  /\ confirmPassword s' = confirmPassword s
  /\ patientExists s' = patientExists s
  /\ hasMarkedRegistration s' = hasMarkedRegistration s
  /\ loading s' = false
  /\ filter isSetter (trace (handleRegistration h s) env s)
     = [Did (SetLoading true); Did (SetLoading false)].
Proof.
  intros H s'. subst s'.
  destruct (handleRegistration_failed h env s H) as [-> ->].
  repeat split. intros Hm. exact Hm.
Qed.

Lemma C10_witness :
  finalState (handleRegistration Sample.browser Sample.registering)
             (Sample.signUpEnv (Sample.failed "User already registered"))
             Sample.registering
  = Sample.registering.
Proof.
  apply (C10_failed_registration_keeps_state
           Sample.browser
           (Sample.signUpEnv (Sample.failed "User already registered"))
           Sample.registering).
  reflexivity.
Defined.

(** ** The page as an event loop *)

Lemma trace_Do {A} e (k : Prog A) env s :
  trace (Do e k) env s = Did e :: trace k env (apply e s).
Proof.
  unfold trace. cbn. destruct (run k env (apply e s)) as [[s1 t1] a].
  reflexivity.
Qed.

Lemma trace_Await {A} c (k : Settled -> Prog A) env s :
  trace (Await c k) env s = Called c :: trace (k (env c)) env s.
Proof.
  unfold trace. cbn. destruct (run (k (env c)) env s) as [[s1 t1] a].
  reflexivity.
Qed.

Lemma finalState_Do {A} e (k : Prog A) env s :
  finalState (Do e k) env s = finalState k env (apply e s).
Proof.
  unfold finalState. cbn. destruct (run k env (apply e s)) as [[s1 t1] a].
  reflexivity.
Qed.

Lemma finalState_Await {A} c (k : Settled -> Prog A) env s :
  finalState (Await c k) env s = finalState (k (env c)) env s.
Proof.
  unfold finalState. cbn. destruct (run (k (env c)) env s) as [[s1 t1] a].
  reflexivity.
Qed.

Lemma exec_cons h pg st rest :
  exec h pg (st :: rest) = exec h (step h pg st) rest.
Proof. reflexivity. Qed.

(** A handler alone on the page, each of its calls answered by [env]
    before anything else happens, does what [run] says. *)
Lemma exec_sequential h env rd sb (p : M unit) :
  forall s sn,
    exec h (advance p (mkPage s rd sb [] [] sn)) (replies env (trace p env s)) =
    mkPage (finalState p env s) rd sb [] [] (sn ++ trace p env s)%list.
Proof.
  induction p as [a | e k IH | c k IH]; intros s sn.
  - cbn. rewrite app_nil_r. reflexivity.
  - rewrite trace_Do, finalState_Do.
    change (replies env (Did e :: trace k env (apply e s)))
      with (replies env (trace k env (apply e s))).
    cbn [advance current rendered subscribed awaiting timers seen].
    rewrite IH, <- app_assoc. reflexivity.
  - rewrite trace_Await, finalState_Await.
    change (replies env (Called c :: trace (k (env c)) env s))
      with (Settle 0 (env c) :: replies env (trace (k (env c)) env s)).
    cbn [advance current rendered subscribed awaiting timers seen app].
    rewrite exec_cons. unfold step.
    cbn [awaiting nth_error removeNth current rendered subscribed timers seen app].
    rewrite IH, <- app_assoc. reflexivity.
Qed.

(** The direct call of [handleRegistration] and the call of the
    listener are both made when the sign-in notification reaches the
    listener while the sign-up is in flight: the direct path neither
    reads nor sets [hasMarkedRegistration]. *)
Lemma notified_registration_marks_twice
      h s session r authData user r1 r2 :
  isRegistration s = true ->
  hasMarkedRegistration s = false ->
  submitDisabled s = false ->
  validationFails s = false ->
  authAccepts r authData user ->
  Js.truthy (Js.field authData "session") = true ->
  markCalls
    (seen (exec h (rendering s)
             [Submit; AuthStateChange "SIGNED_IN" session; Settle 0 r;
              Timeout; Settle 0 r1; Settle 0 r2])) = 2.
Proof.
  unfold validationFails.
  intros Hreg Hlatch Hen Hv (v & -> & Hn & He & -> & -> & Hu) Hs.
  apply orb_false_elim in Hv. destruct Hv as [Hm Hl].
  apply negb_false_iff in Hm.
  pose proof (field_truthy_not_nullish _ _ Hu) as Hdn.
  cbn [exec fold_left].
  unfold step at 6, onSubmit, handleRegistration. js.
  unfold step at 5, onAuthStateChange. js.
  unfold step at 4. js.
  unfold step at 3, markRegisteredLater. js.
  unfold step at 2. js.
  unfold step at 1. js.
  destruct r1 as [x1 | e1], r2 as [x2 | e2]; js; reflexivity.
Qed.

(** The direct path calls mark-as-registered whatever the latch holds. *)
Lemma direct_call_ignores_latch h env s authData user :
  validationFails s = false ->
  authAccepts (env (signUpCall h s)) authData user ->
  Js.truthy (Js.field authData "session") = true ->
  markCalls (trace (handleRegistration h s) env s) = 1.
Proof.
  intros Hv Ha Hs. unfold trace.
  rewrite (handleRegistration_completed h env s authData user Hv Ha).
  unfold afterSignUp. rewrite Hs.
  destruct (env markPatientRegistered); reflexivity.
Qed.

(** C2, evaluated: a registration with an immediate session whose
    SIGNED_IN notification reaches the listener while the sign-up is in
    flight calls mark-as-registered twice, once from the listener's
    timer and once from the handler. *)
Theorem C2_notified_registration_marks_twice :
  filter isMarkCall
    (seen (exec Sample.browser (rendering Sample.registering)
                Sample.notifiedRegistration))
  = [Called markPatientRegistered; Called markPatientRegistered]
  /\ markCalls
       (seen (exec Sample.browser (rendering Sample.registering)
                   Sample.notifiedRegistration)) = 2.
Proof. split; vm_compute; reflexivity. Qed.

(** ** The scenarios of the specification *)

Example unknown_email_stays_in_login :
  run (handleEmailChange "a@b.com")
      (Sample.lookupEnv (Sample.ok (Js.Arr [Sample.row false false])))
      initialState
  = (mkState "a@b.com" EmptyString EmptyString false false false false,
     [Did (SetEmail "a@b.com"); Called (checkPatientEmail "a@b.com");
      Did (SetPatientExists false); Did (SetIsRegistration false)],
     Normal tt).
Proof. reflexivity. Qed.

Example unknown_email_notice_and_disabled :
  notFoundNotice Sample.unknownEmail = true
  /\ submitDisabled Sample.unknownEmail = true.
Proof. split; reflexivity. Qed.

Example new_patient_turns_to_registration :
  formMode (finalState (handleEmailChange "new@clinic.com")
                       (Sample.lookupEnv (Sample.ok (Js.Arr [Sample.row true false])))
                       initialState)
  = Registration.
Proof. reflexivity. Qed.

Example email_without_at_sign_is_not_looked_up :
  trace (handleEmailChange "new") (Sample.lookupEnv Sample.malformed) initialState
  = [Did (SetEmail "new")].
Proof. reflexivity. Qed.

Example pending_registration_asks_for_confirmation :
  run (handleRegistration Sample.browser Sample.registering)
      (Sample.signUpEnv Sample.pending) Sample.registering
  = (mkState "new@clinic.com" EmptyString EmptyString false false true false,
     [Did PreventDefault; Did (SetLoading true);
      Called (SignUp "new@clinic.com" "secret1"
                     "https://aasha.example/patient-login");
      Did (Toast "Confirm your email"
                 (Js.Str "We sent a confirmation link. After confirming, return here to sign in.")
                 None);
      Did (SetIsRegistration false); Did (SetPassword EmptyString);
      Did (SetConfirmPassword EmptyString); Did (SetLoading false)],
     Normal tt).
Proof. reflexivity. Qed.

Example rejected_sign_out_still_denies :
  trace (handleLogin Sample.browser Sample.signingIn)
        (fun c => match c with
                  | SignOut => Rejected (Js.Error "network")
                  | other => Sample.noRecord other
                  end)
        Sample.signingIn
  = (loginPrefix Sample.signingIn (Sample.user "pat@clinic.com") ++ denial ++
     [Did (Toast "Login Failed" (Js.Str "network") (Some "destructive"));
      Did (SetLoading false)])%list.
Proof. reflexivity. Qed.

(** * Further properties of the page *)

(** ** Typing an email *)

Lemma includesAt_not_empty newEmail :
  includesAt newEmail = true -> String.eqb newEmail EmptyString = false.
Proof. destruct newEmail; [discriminate | reflexivity]. Qed.

Lemma handleEmailChange_run newEmail env s :
  run (handleEmailChange newEmail) env s =
  if includesAt newEmail
  then
    (finalState (checkPatientStatus newEmail) env (apply (SetEmail newEmail) s),
     Did (SetEmail newEmail)
     :: trace (checkPatientStatus newEmail) env (apply (SetEmail newEmail) s),
     Normal tt)
  else (apply (SetEmail newEmail) s, [Did (SetEmail newEmail)], Normal tt).
Proof.
  unfold handleEmailChange, finalState, trace.
  destruct (includesAt newEmail); [| reflexivity].
  destruct (thrownByLookup (env (checkPatientEmail newEmail))) as [err |] eqn:Ht.
  - rewrite (checkPatientStatus_caught newEmail env _ err Ht).
    unfold checkPatientStatus, thrownByLookup in *.
    destruct (env (checkPatientEmail newEmail)) as [v | reason] eqn:Hr.
    + destruct (Js.nullish v) eqn:Hn.
      * injection Ht as <-. js. reflexivity.
      * destruct (Js.truthy (Js.field v "error")) eqn:He; [| discriminate].
        injection Ht as <-. js. reflexivity.
    + injection Ht as <-. js. reflexivity.
  - destruct (env (checkPatientEmail newEmail)) as [v | reason] eqn:Hr;
      [| discriminate].
    rewrite (checkPatientStatus_read newEmail env _ v Hr Ht).
    unfold checkPatientStatus, thrownByLookup in *.
    destruct (Js.nullish v) eqn:Hn; [discriminate |].
    destruct (Js.truthy (Js.field v "error")) eqn:He; [discriminate |].
    js. reflexivity.
Qed.

(** An email without an at sign is stored and nothing else happens: no
    lookup is made, and the Patient Status of an earlier lookup stays. *)
Theorem email_without_at_sign_skips_lookup
        (newEmail : string) (env : Env) (s : State) :
  includesAt newEmail = false ->
  run (handleEmailChange newEmail) env s =
  (mkState newEmail (password s) (confirmPassword s) (loading s)
           (isRegistration s) (patientExists s) (hasMarkedRegistration s),
   [Did (SetEmail newEmail)],
   Normal tt).
Proof.
  intros H. rewrite handleEmailChange_run, H. reflexivity.
Qed.

Lemma email_without_at_sign_witness :
  includesAt "new" = false
  /\ isRegistration
       (finalState (handleEmailChange "new") (Sample.lookupEnv (Sample.ok (Js.Arr [])))
                   Sample.registering) = true.
Proof.
  split; [reflexivity |].
  unfold finalState.
  rewrite (email_without_at_sign_skips_lookup
             "new" (Sample.lookupEnv (Sample.ok (Js.Arr []))) Sample.registering);
    reflexivity.
Defined.

(** Whatever is typed and however the lookup settles, the email change
    completes normally with the typed email stored, and the lookup is
    called once, with the typed text, exactly when it holds an at
    sign. *)
Theorem email_change_never_throws
        (newEmail : string) (env : Env) (s : State) :
  completion (handleEmailChange newEmail) env s = Normal tt
  /\ email (finalState (handleEmailChange newEmail) env s) = newEmail
  /\ filter isCall (trace (handleEmailChange newEmail) env s)
     = if includesAt newEmail then [Called (checkPatientEmail newEmail)] else [].
Proof.
  unfold completion, finalState at 1, trace at 1.
  rewrite handleEmailChange_run.
  destruct (includesAt newEmail); [| repeat split].
  cbn [fst snd]. split; [reflexivity |].
  rewrite checkPatientStatus_state. unfold trace.
  destruct (thrownByLookup (env (checkPatientEmail newEmail))) as [err |] eqn:Ht.
  - rewrite (checkPatientStatus_caught newEmail env _ err Ht).
    destruct (patientStatusOf _) as [[e r] |]; split; reflexivity.
  - destruct (env (checkPatientEmail newEmail)) as [v | reason] eqn:Hr;
      [| discriminate].
    rewrite (checkPatientStatus_read newEmail env _ v Hr Ht).
    destruct (patientStatusOf _) as [[e r] |]; split; reflexivity.
Qed.

(** ** The status resolver, continued *)

(** A lookup never throws and touches only [patientExists] and
    [isRegistration]: it returns [null] when it fails by an error and
    the first row of the response otherwise. *)
Theorem lookup_never_throws_and_keeps_the_form
        (em : string) (env : Env) (s : State) :
  let s' := finalState (checkPatientStatus em) env s in
  email s' = email s
  /\ password s' = password s
  /\ confirmPassword s' = confirmPassword s
  /\ loading s' = loading s
  /\ hasMarkedRegistration s' = hasMarkedRegistration s
  /\ completion (checkPatientStatus em) env s =
     match env (checkPatientEmail em), thrownByLookup (env (checkPatientEmail em)) with
     | Resolved v, None => Normal (firstRow (Js.field v "data"))
     | _, _ => Normal Js.Null
     end.
Proof.
  intros s'. subst s'. unfold finalState, completion.
  destruct (thrownByLookup (env (checkPatientEmail em))) as [err |] eqn:Ht.
  - rewrite (checkPatientStatus_caught em env s err Ht).
    destruct (env (checkPatientEmail em)); repeat split.
  - destruct (env (checkPatientEmail em)) as [v | reason] eqn:Hr;
      [| discriminate].
    rewrite (checkPatientStatus_read em env s v Hr Ht). repeat split.
Qed.

(** After any lookup the form is never in Registration mode for an
    email the lookup did not find. *)
Theorem lookup_registration_only_for_known_email
        (em : string) (env : Env) (s : State) :
  isRegistration (finalState (checkPatientStatus em) env s)
  && negb (patientExists (finalState (checkPatientStatus em) env s)) = false.
Proof.
  rewrite checkPatientStatus_state.
  destruct (patientStatusOf (env (checkPatientEmail em))) as [[[|] [|]] |];
    reflexivity.
Qed.

(** A response without rows, or without data at all, means an unknown
    email: Patient Status is false/false, nothing is logged, and the
    lookup returns [undefined]. *)
Theorem lookup_without_rows_is_not_found
        (em : string) (env : Env) (s : State) (v : Js.Value) :
  env (checkPatientEmail em) = Resolved v ->
  thrownByLookup (Resolved v) = None ->
  Js.field v "data" = Js.Arr []
  \/ Js.field v "data" = Js.Null
  \/ Js.field v "data" = Js.Undefined ->
  run (checkPatientStatus em) env s =
  (mkState (email s) (password s) (confirmPassword s) (loading s)
           false false (hasMarkedRegistration s),
   [Called (checkPatientEmail em);
    Did (SetPatientExists false); Did (SetIsRegistration false)],
   Normal Js.Undefined).
Proof.
  intros Hr Ht Hd.
  rewrite (checkPatientStatus_read em env s v Hr Ht).
  destruct Hd as [-> | [-> | ->]]; reflexivity.
Qed.

Lemma lookup_without_rows_witness :
  patientExists
    (finalState (checkPatientStatus "a@b.com")
                (Sample.lookupEnv (Sample.ok (Js.Arr []))) Sample.registering)
  = false.
Proof.
  unfold finalState.
  rewrite (lookup_without_rows_is_not_found
             "a@b.com" (Sample.lookupEnv (Sample.ok (Js.Arr [])))
             Sample.registering
             (Js.Obj [("data", Js.Arr []); ("error", Js.Null)])).
  - reflexivity.
  - reflexivity.
  - reflexivity.
  - left. reflexivity.
Defined.

(** Only the first row of a response is read, and a response that is a
    single object instead of a row set is read as that row. *)
Theorem lookup_reads_first_row_only
        (em : string) (env env' : Env) (s : State)
        (v v' row : Js.Value) (rest : list Js.Value) :
  env (checkPatientEmail em) = Resolved v ->
  env' (checkPatientEmail em) = Resolved v' ->
  thrownByLookup (Resolved v) = None ->
  thrownByLookup (Resolved v') = None ->
  Js.field v "data" = Js.Arr (row :: rest) ->
  Js.field v' "data" = Js.Arr [row]
  \/ (Js.field v' "data" = row /\ Js.isArray row = false /\ Js.nullish row = false) ->
  run (checkPatientStatus em) env s = run (checkPatientStatus em) env' s.
Proof.
  intros Hr Hr' Ht Ht' Hd Hd'.
  rewrite (checkPatientStatus_read em env s v Hr Ht).
  rewrite (checkPatientStatus_read em env' s v' Hr' Ht').
  rewrite Hd.
  destruct Hd' as [-> | (-> & Ha & Hn)]; [reflexivity |].
  unfold firstRow, Js.coalesce. rewrite Hn, Ha. reflexivity.
Qed.

Lemma lookup_reads_first_row_only_witness :
  run (checkPatientStatus "new@clinic.com")
      (Sample.lookupEnv
         (Sample.ok (Js.Arr [Sample.row true false; Sample.row false false])))
      initialState
  = run (checkPatientStatus "new@clinic.com")
        (Sample.lookupEnv (Sample.ok (Sample.row true false)))
        initialState.
Proof.
  apply (lookup_reads_first_row_only
           "new@clinic.com" _ _ initialState
           (Js.Obj [("data", Js.Arr [Sample.row true false; Sample.row false false]);
                    ("error", Js.Null)])
           (Js.Obj [("data", Sample.row true false); ("error", Js.Null)])
           (Sample.row true false) [Sample.row false false]).
  - reflexivity.
  - reflexivity.
  - reflexivity.
  - reflexivity.
  - reflexivity.
  - right. repeat split.
Defined.

(** The state after a lookup keeps nothing of the Patient Status
    before it: the last response to be applied wins, also when it
    answers an earlier email, and applying a response twice changes
    nothing more. *)
Theorem lookup_last_response_wins
        (em1 em2 : string) (env1 env2 : Env) (s : State) :
  finalState (checkPatientStatus em2) env2
             (finalState (checkPatientStatus em1) env1 s)
  = finalState (checkPatientStatus em2) env2 s.
Proof.
  rewrite !checkPatientStatus_state.
  destruct (patientStatusOf (env1 (checkPatientEmail em1))) as [[e1 r1] |],
           (patientStatusOf (env2 (checkPatientEmail em2))) as [[e2 r2] |];
    reflexivity.
Qed.

(** An email that is not found leaves the login form usable: the form
    is in Login mode with the not-found notice, and the submit control
    is enabled as soon as a password is typed and nothing is loading. *)
Theorem not_found_notice_does_not_disable_login
        (newEmail : string) (env : Env) (s : State) :
  includesAt newEmail = true ->
  patientExists (finalState (handleEmailChange newEmail) env s) = false ->
  let s' := finalState (handleEmailChange newEmail) env s in
  notFoundNotice s' = true
  /\ formMode s' = Login
  /\ submitDisabled s' = loading s || String.eqb (password s) EmptyString.
Proof.
  intros Hat. unfold finalState at 1 2.
  rewrite handleEmailChange_run, Hat. cbn [fst].
  rewrite checkPatientStatus_state.
  pose proof (includesAt_not_empty newEmail Hat) as Hne.
  unfold notFoundNotice, formMode, submitDisabled.
  destruct (patientStatusOf (env (checkPatientEmail newEmail)))
    as [[[|] r] |]; cbn; intros H; try discriminate;
    rewrite Hat, Hne; cbn; rewrite ?orb_false_r; repeat split.
Qed.

Lemma not_found_notice_does_not_disable_login_witness :
  submitDisabled
    (finalState (handleEmailChange "a@b.com")
                (Sample.lookupEnv (Sample.ok (Js.Arr [Sample.row false false])))
                (mkState EmptyString "secret1" EmptyString false false false false))
  = false.
Proof.
  apply (not_found_notice_does_not_disable_login
           "a@b.com"
           (Sample.lookupEnv (Sample.ok (Js.Arr [Sample.row false false])))
           (mkState EmptyString "secret1" EmptyString false false false false)).
  - reflexivity.
  - reflexivity.
Defined.

(** ** The session establisher, continued *)

Lemma thrownByAuth_None_iff failure r :
  thrownByAuth failure r = None <->
  exists authData user, authAccepts r authData user.
Proof.
  unfold thrownByAuth, authAccepts. split.
  - destruct r as [v | reason]; [| discriminate].
    destruct (Js.nullish v) eqn:Hn; [discriminate |].
    destruct (Js.truthy (Js.field v "error")) eqn:He; [discriminate |].
    destruct (Js.nullish (Js.field v "data")); [discriminate |].
    destruct (Js.truthy (Js.field (Js.field v "data") "user")) eqn:Hu;
      [| discriminate].
    intros _.
    exists (Js.field v "data"), (Js.field (Js.field v "data") "user"), v.
    repeat split; assumption.
  - intros (authData & user & v & -> & Hn & He & -> & -> & Hu).
    rewrite Hn, He, (field_truthy_not_nullish _ _ Hu), Hu. reflexivity.
Qed.

Lemma thrownByStore_None_iff r :
  thrownByStore r = None <->
  exists patient patientError, storeAnswers r patient patientError.
Proof.
  unfold thrownByStore, storeAnswers. split.
  - destruct r as [w | reason]; [| discriminate].
    destruct (Js.nullish w) eqn:Hn; [discriminate |].
    intros _. exists (Js.field w "data"), (Js.field w "error"), w.
    repeat split; assumption.
  - intros (patient & patientError & w & -> & Hn & _).
    rewrite Hn. reflexivity.
Qed.

Lemma handleLogin_auth_failed h env s err :
  thrownByAuth "Authentication failed" (env (signInCall s)) = Some err ->
  run (handleLogin h s) env s =
  (withLoading false s,
   ([Did PreventDefault; Did (SetLoading true); Called (signInCall s)]
    ++ fst (failureTail "Login Failed" err))%list,
   snd (failureTail "Login Failed" err)).
Proof.
  unfold thrownByAuth, signInCall, handleLogin, failureTail.
  destruct (env (SignInWithPassword (email s) (password s)))
    as [v | reason] eqn:Hr.
  - destruct (Js.nullish v) eqn:Hn; [intros [= <-]; js; reflexivity |].
    destruct (Js.truthy (Js.field v "error")) eqn:He.
    + pose proof (truthy_not_nullish _ He) as Hen.
      intros [= <-]. js. reflexivity.
    + destruct (Js.nullish (Js.field v "data")) eqn:Hdn;
        [intros [= <-]; js; reflexivity |].
      destruct (Js.truthy (Js.field (Js.field v "data") "user")) eqn:Hu;
        [discriminate |].
      intros [= <-]. js. reflexivity.
  - intros [= <-].
    destruct (Js.nullish reason) eqn:Hn; js; reflexivity.
Qed.

Lemma handleLogin_store_failed h env s authData user err :
  authAccepts (env (signInCall s)) authData user ->
  thrownByStore (env (SelectPatientByEmail (Js.field user "email"))) = Some err ->
  run (handleLogin h s) env s =
  (withLoading false s,
   (loginPrefix s user ++ fst (failureTail "Login Failed" err))%list,
   snd (failureTail "Login Failed" err)).
Proof.
  intros (v & Hr & Hn & He & -> & -> & Hu).
  pose proof (field_truthy_not_nullish _ _ Hu) as Hdn.
  pose proof (truthy_not_nullish _ Hu) as Hun.
  unfold signInCall in Hr.
  unfold thrownByStore, handleLogin, loginPrefix, signInCall, failureTail.
  destruct (env (SelectPatientByEmail
                   (Js.field (Js.field (Js.field v "data") "user") "email")))
    as [w | reason] eqn:Hw.
  - destruct (Js.nullish w) eqn:Hwn; [| discriminate].
    intros [= <-]. js. reflexivity.
  - intros [= <-].
    destruct (Js.nullish reason) eqn:Hen; js; reflexivity.
Qed.

Lemma handleRegistration_auth_failed h env s err :
  validationFails s = false ->
  thrownByAuth "Registration failed" (env (signUpCall h s)) = Some err ->
  run (handleRegistration h s) env s =
  (withLoading false s,
   ([Did PreventDefault; Did (SetLoading true); Called (signUpCall h s)]
    ++ fst (failureTail "Registration Failed" err))%list,
   snd (failureTail "Registration Failed" err)).
Proof.
  unfold validationFails. intros Hv.
  apply orb_false_elim in Hv. destruct Hv as [Hm Hl].
  apply negb_false_iff in Hm.
  unfold thrownByAuth, signUpCall, handleRegistration, failureTail.
  destruct (env (SignUp (email s) (password s) (origin h ++ "/patient-login")))
    as [v | reason] eqn:Hr.
  - destruct (Js.nullish v) eqn:Hn; [intros [= <-]; js; reflexivity |].
    destruct (Js.truthy (Js.field v "error")) eqn:He.
    + pose proof (truthy_not_nullish _ He) as Hen.
      intros [= <-]. js. reflexivity.
    + destruct (Js.nullish (Js.field v "data")) eqn:Hdn;
        [intros [= <-]; js; reflexivity |].
      destruct (Js.truthy (Js.field (Js.field v "data") "user")) eqn:Hu;
        [discriminate |].
      intros [= <-]. js. reflexivity.
  - intros [= <-].
    destruct (Js.nullish reason) eqn:Hn; js; reflexivity.
Qed.

Lemma failureTail_quiet title err :
  existsb isCall (fst (failureTail title err)) = false
  /\ existsb isStorageWrite (fst (failureTail title err)) = false
  /\ existsb isNavigate (fst (failureTail title err)) = false
  /\ filter isSetter (fst (failureTail title err)) = [Did (SetLoading false)].
Proof.
  unfold failureTail. destruct (Js.nullish err); repeat split.
Qed.

Lemma handleRegistration_invalid h env s :
  validationFails s = true ->
  exists message,
    run (handleRegistration h s) env s =
    (withLoading false s,
     [Did PreventDefault; Did (SetLoading true);
      Did (Toast "Registration Failed" (Js.Str message) (Some "destructive"));
      Did (SetLoading false)],
     Normal tt).
Proof.
  unfold validationFails, handleRegistration.
  destruct (String.eqb (password s) (confirmPassword s)) eqn:Hm.
  - cbn [negb orb]. intros Hl. eexists. js. reflexivity.
  - intros _. eexists. js. reflexivity.
Qed.

Lemma handleLogin_outcome h env s : LoginOutcome h env s.
Proof.
  destruct (thrownByAuth "Authentication failed" (env (signInCall s)))
    as [err |] eqn:Ha.
  { eapply AuthFailed; [exact Ha |]. now apply handleLogin_auth_failed. }
  apply thrownByAuth_None_iff in Ha. destruct Ha as (authData & user & Ha).
  destruct (thrownByStore (env (SelectPatientByEmail (Js.field user "email"))))
    as [err |] eqn:Hs.
  { eapply StoreFailed; [exact Ha | exact Hs |].
    now apply (handleLogin_store_failed h env s authData user). }
  apply thrownByStore_None_iff in Hs.
  destruct Hs as (patient & patientError & Hs).
  destruct (Js.truthy patientError || negb (Js.truthy patient)) eqn:Hd.
  { eapply Denied; [exact Ha | exact Hs | exact Hd |].
    now apply (handleLogin_denied h env s authData user patient patientError). }
  apply orb_false_elim in Hd. destruct Hd as [He Hp].
  apply negb_false_iff in Hp.
  eapply Enrolled; [exact Ha | exact Hs | exact He | exact Hp |].
  do 2 eexists.
  apply (handleLogin_enrolled h env s authData user patient patientError);
    assumption.
Qed.

Lemma loginPrefix_quiet s user :
  existsb isStorageWrite (loginPrefix s user) = false
  /\ existsb isNavigate (loginPrefix s user) = false
  /\ existsb isSignOut (loginPrefix s user) = false
  /\ filter isSetter (loginPrefix s user) = [Did (SetLoading true)].
Proof. repeat split. Qed.

Lemma afterSignOut_quiet signOut :
  existsb isStorageWrite (fst (afterSignOut signOut)) = false
  /\ existsb isNavigate (fst (afterSignOut signOut)) = false
  /\ filter isSetter (fst (afterSignOut signOut)) = [Did (SetLoading false)].
Proof.
  unfold afterSignOut.
  destruct signOut as [x | reason]; [| destruct (Js.nullish reason)];
    repeat split.
Qed.

Lemma failureTail_no_sign_out title err :
  existsb isSignOut (fst (failureTail title err)) = false.
Proof. unfold failureTail. destruct (Js.nullish err); reflexivity. Qed.

(** When the auth service does not accept the credentials, the login
    stops there: the service's error message is shown as it is, the
    patient store is not asked, there is no sign-out, nothing is stored
    and nothing navigates. *)
Theorem login_auth_failure_stops_before_store
        (h : Browser) (env : Env) (s : State) (err : Js.Value) :
  thrownByAuth "Authentication failed" (env (signInCall s)) = Some err ->
  Js.nullish err = false ->
  run (handleLogin h s) env s =
  (withLoading false s,
   [Did PreventDefault; Did (SetLoading true); Called (signInCall s);
    Did (Toast "Login Failed" (Js.field err "message") (Some "destructive"));
    Did (SetLoading false)],
   Normal tt).
Proof.
  intros Ha Hn. rewrite (handleLogin_auth_failed h env s err Ha).
  unfold failureTail. rewrite Hn. reflexivity.
Qed.

Lemma login_auth_failure_witness :
  trace (handleLogin Sample.browser Sample.signingIn)
        (Sample.env (Sample.ok (Js.Arr []))
                    Sample.pending
                    (Sample.failed "Invalid login credentials")
                    (Sample.ok Sample.patient))
        Sample.signingIn
  = [Did PreventDefault; Did (SetLoading true);
     Called (SignInWithPassword "pat@clinic.com" "secret1");
     Did (Toast "Login Failed" (Js.Str "Invalid login credentials")
                (Some "destructive"));
     Did (SetLoading false)].
Proof.
  unfold trace.
  rewrite (login_auth_failure_stops_before_store
             Sample.browser _ Sample.signingIn
             (Js.Error "Invalid login credentials")); reflexivity.
Defined.

(** When the patient store does not answer (the query rejects, or its
    value cannot be destructured), the login does not sign out: the
    auth session just established stays, and nothing is stored and
    nothing navigates.  The thrown value's message is shown in a Login
    Failed toast, unless the thrown value is [null] or [undefined]:
    then no message is shown at all. *)
Theorem login_store_failure_keeps_auth_session
        (h : Browser) (env : Env) (s : State)
        (authData user err : Js.Value) :
  authAccepts (env (signInCall s)) authData user ->
  thrownByStore (env (SelectPatientByEmail (Js.field user "email"))) = Some err ->
  let tr := trace (handleLogin h s) env s in
  existsb isSignOut tr = false
  /\ existsb isStorageWrite tr = false
  /\ existsb isNavigate tr = false
  /\ tr = (loginPrefix s user ++
           (if Js.nullish err
            then []
            else [Did (Toast "Login Failed" (Js.field err "message")
                             (Some "destructive"))]) ++
           [Did (SetLoading false)])%list
  /\ existsb isToast tr = negb (Js.nullish err).
Proof.
  intros Ha Hs tr. subst tr. unfold trace.
  rewrite (handleLogin_store_failed h env s authData user err Ha Hs).
  cbn [fst snd].
  destruct (failureTail_quiet "Login Failed" err) as (_ & H2 & H3 & _).
  pose proof (failureTail_no_sign_out "Login Failed" err) as H4.
  rewrite !existsb_app, H2, H3, H4.
  repeat split; unfold failureTail; destruct (Js.nullish err); reflexivity.
Qed.

Lemma login_store_failure_witness :
  existsb isSignOut
    (trace (handleLogin Sample.browser Sample.signingIn)
           (Sample.storeEnv (Rejected (Js.Error "Failed to fetch")))
           Sample.signingIn)
  = false.
Proof.
  apply (login_store_failure_keeps_auth_session
           Sample.browser
           (Sample.storeEnv (Rejected (Js.Error "Failed to fetch")))
           Sample.signingIn
           (Js.Obj [("user", Sample.user "pat@clinic.com");
                    ("session", Sample.session)])
           (Sample.user "pat@clinic.com")
           (Js.Error "Failed to fetch")).
  - eexists. repeat split; reflexivity.
  - reflexivity.
Defined.

(** However the services answer, a login changes no state cell but
    [loading], which it leaves off; the typed password stays. *)
Theorem login_only_clears_loading (h : Browser) (env : Env) (s : State) :
  finalState (handleLogin h s) env s = withLoading false s
  /\ filter isSetter (trace (handleLogin h s) env s)
     = [Did (SetLoading true); Did (SetLoading false)].
Proof.
  unfold finalState, trace.
  destruct (handleLogin_outcome h env s)
    as [err Ha Hrun | authData user err Ha Hs Hrun
        | authData user patient patientError Ha Hs Hd Hrun
        | authData user patient patientError Ha Hs He Hp
            (written & greeting & Hrun)];
    rewrite Hrun; cbn [fst snd]; (split; [reflexivity |]).
  - destruct (failureTail_quiet "Login Failed" err) as (_ & _ & _ & H).
    cbn [app filter isSetter]. rewrite H. reflexivity.
  - destruct (failureTail_quiet "Login Failed" err) as (_ & _ & _ & H).
    rewrite filter_app, H. reflexivity.
  - destruct (afterSignOut_quiet (env SignOut)) as (_ & _ & H).
    rewrite !filter_app, H. reflexivity.
  - reflexivity.
Qed.

(** A login writes the local session only after the auth service has
    accepted the credentials and the store has answered with a record
    and no error; it navigates exactly when it writes, and it never
    both signs out and writes. *)
Theorem login_writes_session_only_for_enrolled_patient
        (h : Browser) (env : Env) (s : State) :
  let tr := trace (handleLogin h s) env s in
  (existsb isStorageWrite tr = true <->
   exists authData user patient patientError,
     authAccepts (env (signInCall s)) authData user
     /\ storeAnswers (env (SelectPatientByEmail (Js.field user "email")))
                     patient patientError
     /\ Js.truthy patientError = false
     /\ Js.truthy patient = true)
  /\ existsb isNavigate tr = existsb isStorageWrite tr
  /\ existsb isSignOut tr && existsb isStorageWrite tr = false.
Proof.
  intros tr. subst tr. unfold trace.
  split.
  - split.
    + destruct (handleLogin_outcome h env s)
        as [err Ha Hrun | authData user err Ha Hs Hrun
            | authData user patient patientError Ha Hs Hd Hrun
            | authData user patient patientError Ha Hs He Hp
                (written & greeting & Hrun)];
        rewrite Hrun; cbn [fst snd].
      * destruct (failureTail_quiet "Login Failed" err) as (_ & H & _).
        cbn [app existsb isStorageWrite orb]. rewrite H. discriminate.
      * destruct (failureTail_quiet "Login Failed" err) as (_ & H & _).
        rewrite existsb_app, H. discriminate.
      * destruct (afterSignOut_quiet (env SignOut)) as (H & _).
        rewrite !existsb_app, H. discriminate.
      * intros _. exists authData, user, patient, patientError. auto.
    + intros (authData & user & patient & patientError & Ha & Hs & He & Hp).
      rewrite (handleLogin_enrolled h env s authData user patient patientError
                                    Ha Hs He Hp).
      reflexivity.
  - destruct (handleLogin_outcome h env s)
      as [err Ha Hrun | authData user err Ha Hs Hrun
          | authData user patient patientError Ha Hs Hd Hrun
          | authData user patient patientError Ha Hs He Hp
              (written & greeting & Hrun)];
      rewrite Hrun; cbn [fst snd].
    + destruct (failureTail_quiet "Login Failed" err) as (_ & H1 & H2 & _).
      cbn [app existsb isStorageWrite isNavigate isSignOut orb].
      rewrite H1, H2, andb_false_r. split; reflexivity.
    + destruct (failureTail_quiet "Login Failed" err) as (_ & H1 & H2 & _).
      rewrite !existsb_app, H1, H2, andb_false_r. split; reflexivity.
    + destruct (afterSignOut_quiet (env SignOut)) as (H1 & H2 & _).
      rewrite !existsb_app, H1, H2, andb_false_r. split; reflexivity.
    + split; reflexivity.
Qed.

Lemma handleRegistration_outcome h env s : RegistrationOutcome h env s.
Proof.
  destruct (validationFails s) eqn:Hv.
  { destruct (handleRegistration_invalid h env s Hv) as (message & Hrun).
    eapply Invalid; [exact Hv | exact Hrun]. }
  destruct (thrownByAuth "Registration failed" (env (signUpCall h s)))
    as [err |] eqn:Ha.
  { eapply Refused; [exact Hv | exact Ha |].
    now apply handleRegistration_auth_failed. }
  apply thrownByAuth_None_iff in Ha. destruct Ha as (authData & user & Ha).
  apply (Completed h env s authData user Hv Ha).
  exact (handleRegistration_completed h env s authData user Hv Ha).
Qed.

Lemma afterSignUp_marks session mark :
  markCalls (afterSignUp session mark) = if Js.truthy session then 1 else 0.
Proof.
  unfold afterSignUp.
  destruct (Js.truthy session); [destruct mark |]; reflexivity.
Qed.

Lemma afterSignUp_quiet session mark :
  filter isSignUp (afterSignUp session mark) = []
  /\ filter isSetter (afterSignUp session mark) = [].
Proof.
  unfold afterSignUp.
  destruct (Js.truthy session); [destruct mark |]; split; reflexivity.
Qed.

Lemma failureTail_no_mark title err :
  markCalls (fst (failureTail title err)) = 0
  /\ filter isSignUp (fst (failureTail title err)) = [].
Proof. unfold failureTail. destruct (Js.nullish err); split; reflexivity. Qed.

(** The sign-up request is sent exactly when the password passes both
    checks (it equals its confirmation and has 6 characters or more),
    and then once, with the email and the password of the form. *)
Theorem sign_up_sent_iff_password_valid
        (h : Browser) (env : Env) (s : State) :
  filter isSignUp (trace (handleRegistration h s) env s)
  = if validationFails s
    then []
    else [Called (SignUp (email s) (password s) (origin h ++ "/patient-login"))].
Proof.
  unfold trace.
  destruct (handleRegistration_outcome h env s)
    as [message Hv Hrun | err Hv Ha Hrun | authData user Hv Ha Hrun];
    rewrite Hrun, Hv; cbn [fst snd].
  - reflexivity.
  - destruct (failureTail_no_mark "Registration Failed" err) as (_ & H).
    rewrite filter_app, H. reflexivity.
  - destruct (afterSignUp_quiet (Js.field authData "session")
                                (env markPatientRegistered)) as (H & _).
    rewrite !filter_app, H. reflexivity.
Qed.

Lemma authAccepts_unique r authData user authData' user' :
  authAccepts r authData user ->
  authAccepts r authData' user' ->
  authData = authData' /\ user = user'.
Proof.
  intros (v & -> & _ & _ & -> & -> & _) (v' & [= <-] & _ & _ & -> & -> & _).
  split; reflexivity.
Qed.

(** When the auth service refuses the sign-up, its error message is
    shown as it is, nothing is marked as registered, and the form stays
    as it was, ready for another attempt. *)
Theorem registration_refusal_shown_verbatim
        (h : Browser) (env : Env) (s : State) (err : Js.Value) :
  validationFails s = false ->
  thrownByAuth "Registration failed" (env (signUpCall h s)) = Some err ->
  Js.nullish err = false ->
  run (handleRegistration h s) env s =
  (withLoading false s,
   [Did PreventDefault; Did (SetLoading true); Called (signUpCall h s);
    Did (Toast "Registration Failed" (Js.field err "message")
               (Some "destructive"));
    Did (SetLoading false)],
   Normal tt).
Proof.
  intros Hv Ha Hn. rewrite (handleRegistration_auth_failed h env s err Hv Ha).
  unfold failureTail. rewrite Hn. reflexivity.
Qed.

Lemma registration_refusal_witness :
  trace (handleRegistration Sample.browser Sample.registering)
        (Sample.signUpEnv (Sample.failed "User already registered"))
        Sample.registering
  = [Did PreventDefault; Did (SetLoading true);
     Called (SignUp "new@clinic.com" "secret1"
                    "https://aasha.example/patient-login");
     Did (Toast "Registration Failed" (Js.Str "User already registered")
                (Some "destructive"));
     Did (SetLoading false)].
Proof.
  unfold trace.
  rewrite (registration_refusal_shown_verbatim
             Sample.browser _ Sample.registering
             (Js.Error "User already registered")); reflexivity.
Defined.

(** A service promise rejected with [null] or [undefined] is the one
    failure that shows no message: reading the message of the caught
    value throws in the [catch] block, so the handler itself rejects;
    [loading] is still cleared. *)
Theorem rejection_without_reason_shows_no_message
        (h : Browser) (env : Env) (s : State) (reason : Js.Value) :
  Js.nullish reason = true ->
  (env (signInCall s) = Rejected reason ->
   run (handleLogin h s) env s =
   (withLoading false s,
    [Did PreventDefault; Did (SetLoading true); Called (signInCall s);
     Did (SetLoading false)],
    Thrown (Js.TypeError "message")))
  /\ (validationFails s = false ->
      env (signUpCall h s) = Rejected reason ->
      run (handleRegistration h s) env s =
      (withLoading false s,
       [Did PreventDefault; Did (SetLoading true); Called (signUpCall h s);
        Did (SetLoading false)],
       Thrown (Js.TypeError "message"))).
Proof.
  intros Hn. split.
  - intros Hr.
    rewrite (handleLogin_auth_failed h env s reason)
      by (rewrite Hr; reflexivity).
    unfold failureTail. rewrite Hn. reflexivity.
  - intros Hv Hr.
    rewrite (handleRegistration_auth_failed h env s reason Hv)
      by (rewrite Hr; reflexivity).
    unfold failureTail. rewrite Hn. reflexivity.
Qed.

Lemma rejection_without_reason_witness :
  existsb isToast
    (trace (handleLogin Sample.browser Sample.signingIn)
           (Sample.env (Sample.ok (Js.Arr [])) Sample.pending
                       (Rejected Js.Undefined) (Sample.ok Sample.patient))
           Sample.signingIn)
  = false.
Proof.
  unfold trace.
  destruct (rejection_without_reason_shows_no_message
              Sample.browser
              (Sample.env (Sample.ok (Js.Arr [])) Sample.pending
                          (Rejected Js.Undefined) (Sample.ok Sample.patient))
              Sample.signingIn Js.Undefined eq_refl) as [H _].
  rewrite (H eq_refl). reflexivity.
Defined.

(** The handler calls mark-as-registered at most once, and it does so
    exactly when the password is valid and the auth service accepts
    the sign-up with a session: never for a pending confirmation, a
    refusal or an invalid password. *)
Theorem registration_marks_only_with_session
        (h : Browser) (env : Env) (s : State) :
  markCalls (trace (handleRegistration h s) env s) <= 1
  /\ (markCalls (trace (handleRegistration h s) env s) = 1 <->
      validationFails s = false
      /\ exists authData user,
           authAccepts (env (signUpCall h s)) authData user
           /\ Js.truthy (Js.field authData "session") = true).
Proof.
  unfold trace.
  destruct (handleRegistration_outcome h env s)
    as [message Hv Hrun | err Hv Ha Hrun | authData user Hv Ha Hrun];
    rewrite Hrun; cbn [fst snd].
  - split; [cbn; lia |]. split; [discriminate |].
    intros [Hv' _]. congruence.
  - destruct (failureTail_no_mark "Registration Failed" err) as (H & _).
    unfold markCalls in *. rewrite filter_app, length_app, H.
    split; [cbn; lia |]. split; [discriminate |].
    intros (_ & authData & user & Ha' & _).
    assert (Hnone : thrownByAuth "Registration failed" (env (signUpCall h s)) = None)
      by (apply thrownByAuth_None_iff; eauto).
    congruence.
  - pose proof (afterSignUp_marks (Js.field authData "session")
                                  (env markPatientRegistered)) as H.
    unfold markCalls in *. rewrite !filter_app, !length_app, H.
    destruct (Js.truthy (Js.field authData "session")) eqn:Hs; cbn.
    + split; [lia |]. split; [| reflexivity].
      intros _. split; [exact Hv |]. exists authData, user. auto.
    + split; [lia |]. split; [discriminate |].
      intros (_ & authData' & user' & Ha' & Hs').
      destruct (authAccepts_unique _ _ _ _ _ Ha Ha') as [<- _]. congruence.
Qed.

(** A mark-as-registered call that rejects does not fail the
    registration: the error is logged on the console, the success
    message is shown, and the form goes back to Login mode. *)
Theorem mark_failure_is_not_fatal
        (h : Browser) (env : Env) (s : State) (authData user err : Js.Value) :
  validationFails s = false ->
  authAccepts (env (signUpCall h s)) authData user ->
  Js.truthy (Js.field authData "session") = true ->
  env markPatientRegistered = Rejected err ->
  run (handleRegistration h s) env s =
  (backToLogin s,
   [Did PreventDefault; Did (SetLoading true); Called (signUpCall h s);
    Called markPatientRegistered;
    Did (ConsoleError "Error marking patient registered:" err);
    Did (Toast "Registration successful!"
               (Js.Str "You're all set. You can now sign in.") None);
    Did (SetIsRegistration false); Did (SetPassword EmptyString);
    Did (SetConfirmPassword EmptyString); Did (SetLoading false)],
   Normal tt).
Proof.
  intros Hv Ha Hs Hm.
  rewrite (handleRegistration_completed h env s authData user Hv Ha).
  unfold afterSignUp. rewrite Hs, Hm. reflexivity.
Qed.

Lemma mark_failure_is_not_fatal_witness :
  formMode
    (finalState (handleRegistration Sample.browser Sample.registering)
                (fun c => match c with
                          | Rpc _ None => Rejected (Js.Error "permission denied")
                          | other => Sample.signUpEnv Sample.confirmed other
                          end)
                Sample.registering)
  = Login.
Proof.
  unfold finalState.
  rewrite (mark_failure_is_not_fatal
             Sample.browser _ Sample.registering
             (Js.Obj [("user", Sample.user "new@clinic.com");
                      ("session", Sample.session)])
             (Sample.user "new@clinic.com")
             (Js.Error "permission denied")).
  - reflexivity.
  - reflexivity.
  - eexists. repeat split; reflexivity.
  - reflexivity.
  - reflexivity.
Defined.

(** However the services answer, a registration leaves [loading] off
    and never touches the email, [patientExists] or the latch; the
    state is the one before with [loading] off, or the same put back
    to Login mode with both passwords empty. *)
Theorem registration_clears_loading_and_keeps_identity
        (h : Browser) (env : Env) (s : State) :
  let s' := finalState (handleRegistration h s) env s in
  (s' = withLoading false s \/ s' = backToLogin s)
  /\ loading s' = false
  /\ email s' = email s
  /\ patientExists s' = patientExists s
  /\ hasMarkedRegistration s' = hasMarkedRegistration s.
Proof.
  intros s'. subst s'. unfold finalState.
  destruct (handleRegistration_outcome h env s)
    as [message Hv Hrun | err Hv Ha Hrun | authData user Hv Ha Hrun];
    rewrite Hrun; cbn [fst]; repeat split; auto.
Qed.

(** ** The form across handlers *)

Lemma markRegisteredLater_state env s :
  finalState markRegisteredLater env s =
  match env markPatientRegistered with
  | Resolved _ => apply (SetHasMarkedRegistration true) s
  | Rejected _ => s
  end.
Proof.
  unfold finalState, markRegisteredLater, markPatientRegistered.
  destruct (env (Rpc "mark_patient_registered" None)) as [x | err] eqn:Hm;
    js; [reflexivity |].
  destruct s; reflexivity.
Qed.

(** Registration mode is only ever shown for an email that a lookup
    found: the initial state has this, and typing an email, submitting
    a registration or a login, and the listener's timer all keep it.
    In such a state the submit control in Registration mode is
    disabled exactly when something is loading or one of the three
    fields is empty. *)
Theorem registration_mode_implies_known_email
        (h : Browser) (env : Env) (s : State) (newEmail : string) :
  isRegistration s && negb (patientExists s) = false ->
  let ok (s' : State) := isRegistration s' && negb (patientExists s') = false in
  ok initialState
  /\ ok (finalState (handleEmailChange newEmail) env s)
  /\ ok (finalState (handleRegistration h s) env s)
  /\ ok (finalState (handleLogin h s) env s)
  /\ ok (finalState markRegisteredLater env s)
  /\ (isRegistration s = true ->
      submitDisabled s =
      loading s
      || String.eqb (email s) EmptyString
      || String.eqb (password s) EmptyString
      || String.eqb (confirmPassword s) EmptyString).
Proof.
  intros H ok. subst ok. cbv beta.
  split; [reflexivity |]. split; [| split; [| split; [| split]]].
  - unfold finalState. rewrite handleEmailChange_run.
    destruct (includesAt newEmail); cbn [fst]; [| exact H].
    fold (finalState (checkPatientStatus newEmail) env (apply (SetEmail newEmail) s)).
    rewrite checkPatientStatus_state.
    destruct (patientStatusOf (env (checkPatientEmail newEmail)))
      as [[[|] [|]] |]; reflexivity.
  - unfold finalState.
    destruct (handleRegistration_outcome h env s)
      as [message Hv Hrun | err Hv Ha Hrun | authData user Hv Ha Hrun];
      rewrite Hrun; cbn [fst]; [exact H | exact H | reflexivity].
  - unfold finalState.
    destruct (handleLogin_outcome h env s)
      as [err Ha Hrun | authData user err Ha Hs Hrun
          | authData user patient patientError Ha Hs Hd Hrun
          | authData user patient patientError Ha Hs He Hp
              (written & greeting & Hrun)];
      rewrite Hrun; exact H.
  - rewrite markRegisteredLater_state.
    destruct (env markPatientRegistered); exact H.
  - intros Hr. unfold submitDisabled. rewrite Hr in *. cbn in H.
    apply negb_false_iff in H. rewrite H. cbn.
    rewrite orb_false_r. reflexivity.
Qed.

Lemma registration_mode_implies_known_email_witness :
  submitDisabled Sample.registering = false.
Proof.
  destruct (registration_mode_implies_known_email
              Sample.browser (Sample.signUpEnv Sample.confirmed)
              Sample.registering "new@clinic.com" eq_refl)
    as (_ & _ & _ & _ & _ & H).
  rewrite (H eq_refl). reflexivity.
Defined.

(** ** The listener on the event loop *)

Lemma exec_app h pg l1 l2 :
  exec h pg (l1 ++ l2)%list = exec h (exec h pg l1) l2.
Proof. unfold exec. apply fold_left_app. Qed.


Lemma latched_listener s event session :
  latched s = true -> onAuthStateChange s event session = [].
Proof.
  unfold latched, onAuthStateChange. intros H.
  apply negb_true_iff in H. rewrite <- andb_assoc, H, andb_false_r.
  reflexivity.
Qed.

Lemma background_ignored h steps :
  forall pg,
    forallb isBackground steps = true ->
    timers pg = [] ->
    latched (current pg) = true ->
    latched (rendered pg) = true ->
    latched (subscribed pg) = true ->
    current (exec h pg steps) = current pg
    /\ awaiting (exec h pg steps) = awaiting pg
    /\ timers (exec h pg steps) = []
    /\ seen (exec h pg steps) = seen pg.
Proof.
  induction steps as [| st rest IH]; intros pg Hb Ht Hc Hr Hs;
    [repeat split; assumption |].
  cbn [forallb] in Hb. apply andb_prop in Hb. destruct Hb as [Hst Hrest].
  rewrite exec_cons.
  assert (Hstep : current (step h pg st) = current pg
                  /\ awaiting (step h pg st) = awaiting pg
                  /\ timers (step h pg st) = []
                  /\ seen (step h pg st) = seen pg
                  /\ latched (rendered (step h pg st)) = true
                  /\ latched (subscribed (step h pg st)) = true).
  { destruct st as [| event session | | i r | |]; try discriminate.
    - unfold step. rewrite (latched_listener _ event session Hs), Ht.
      repeat split; assumption.
    - unfold step. rewrite Ht. repeat split; assumption.
    - unfold step. repeat split; assumption.
    - unfold step.
      destruct (depsChanged (subscribed pg) (rendered pg));
        repeat split; assumption. }
  destruct Hstep as (H1 & H2 & H3 & H4 & H5 & H6).
  destruct (IH (step h pg st) Hrest H3) as (I1 & I2 & I3 & I4);
    try assumption.
  - rewrite H1. exact Hc.
  - rewrite I1, I2, I3, I4, H1, H2, H4. repeat split.
Qed.



(** In Registration mode the first sign-in notification calls
    mark-as-registered from its timer and, when the call resolves,
    sets the latch.  Once the page has rendered that state and the
    effect has subscribed the listener again, every later notification
    is ignored.  Until then the listener still holds the latch of its
    own render: a notification that arrives after the latch is set,
    even after the render, calls mark-as-registered again. *)
Theorem latch_stops_later_notifications
        (h : Browser) (s : State) (session session' x : Js.Value)
        (later : list Step) :
  isRegistration s = true ->
  hasMarkedRegistration s = false ->
  forallb isBackground later = true ->
  (let pg :=
     exec h (rendering s)
          ([AuthStateChange "SIGNED_IN" session; Timeout;
            Settle 0 (Resolved x); Render; RunEffect] ++ later)%list in
   current pg = apply (SetHasMarkedRegistration true) s
   /\ timers pg = []
   /\ seen pg = [Called markPatientRegistered;
                 Did (SetHasMarkedRegistration true)])
  /\ seen (exec h (rendering s)
                [AuthStateChange "SIGNED_IN" session; Timeout;
                 Settle 0 (Resolved x); Render;
                 AuthStateChange "SIGNED_IN" session'; Timeout])
     = [Called markPatientRegistered; Did (SetHasMarkedRegistration true);
        Called markPatientRegistered].
Proof.
  intros Hr Hl Hb.
  destruct s as [em pw cp ld ir pe hm]. cbn in Hr, Hl. subst ir hm.
  split; [| reflexivity].
  cbv zeta. rewrite exec_app.
  set (s' := mkState em pw cp ld true pe true).
  assert (Hfirst :
    exec h (rendering (mkState em pw cp ld true pe false))
         [AuthStateChange "SIGNED_IN" session; Timeout;
          Settle 0 (Resolved x); Render; RunEffect]
    = mkPage s' s' s' [] []
             [Called markPatientRegistered; Did (SetHasMarkedRegistration true)])
    by reflexivity.
  rewrite Hfirst.
  destruct (background_ignored
              h later
              (mkPage s' s' s' [] []
                      [Called markPatientRegistered;
                       Did (SetHasMarkedRegistration true)]) Hb)
    as (H1 & _ & H3 & H4); try reflexivity.
  rewrite H1, H3, H4. repeat split.
Qed.

Lemma latch_stops_later_notifications_witness :
  markCalls
    (seen (exec Sample.browser (rendering Sample.registering)
                [AuthStateChange "SIGNED_IN" Sample.session; Timeout;
                 Settle 0 (Resolved Js.Null); Render; RunEffect;
                 AuthStateChange "SIGNED_IN" Sample.session; Timeout]))
  = 1.
Proof.
  destruct (latch_stops_later_notifications
              Sample.browser Sample.registering Sample.session Sample.session
              Js.Null
              [AuthStateChange "SIGNED_IN" Sample.session; Timeout]
              eq_refl eq_refl eq_refl) as [(_ & _ & H) _].
  cbn [app] in H. rewrite H. reflexivity.
Defined.

(** The latch is set only when the call has resolved: a second sign-in
    notification that arrives while the first call is in flight calls
    mark-as-registered again. *)
Theorem notification_during_call_marks_again
        (h : Browser) (s : State) (session1 session2 x1 x2 : Js.Value) :
  isRegistration s = true ->
  hasMarkedRegistration s = false ->
  exec h (rendering s)
       [AuthStateChange "SIGNED_IN" session1; Timeout;
        AuthStateChange "SIGNED_IN" session2; Timeout;
        Settle 0 (Resolved x1); Settle 0 (Resolved x2)]
  = mkPage (apply (SetHasMarkedRegistration true) s) s s [] []
           [Called markPatientRegistered; Called markPatientRegistered;
            Did (SetHasMarkedRegistration true);
            Did (SetHasMarkedRegistration true)].
Proof.
  intros Hr Hl.
  destruct s as [em pw cp ld ir pe hm]. cbn in Hr, Hl. subst ir hm.
  reflexivity.
Qed.

Lemma notification_during_call_witness :
  markCalls
    (seen (exec Sample.browser (rendering Sample.registering)
                [AuthStateChange "SIGNED_IN" Sample.session; Timeout;
                 AuthStateChange "SIGNED_IN" Sample.session; Timeout;
                 Settle 0 (Resolved Js.Null); Settle 0 (Resolved Js.Null)]))
  = 2.
Proof.
  rewrite (notification_during_call_marks_again
             Sample.browser Sample.registering Sample.session Sample.session
             Js.Null Js.Null eq_refl eq_refl).
  reflexivity.
Defined.

(** A mark-as-registered call from the listener that rejects is logged
    on the console and leaves the latch unset, so the next sign-in
    notification calls again. *)
Theorem rejected_mark_leaves_latch_unset
        (h : Browser) (s : State) (session1 session2 err : Js.Value) :
  isRegistration s = true ->
  hasMarkedRegistration s = false ->
  exec h (rendering s)
       [AuthStateChange "SIGNED_IN" session1; Timeout; Settle 0 (Rejected err)]
  = mkPage s s s [] []
           [Called markPatientRegistered;
            Did (ConsoleError "Error marking patient registered via RPC:" err)]
  /\ seen (exec h (rendering s)
                [AuthStateChange "SIGNED_IN" session1; Timeout;
                 Settle 0 (Rejected err);
                 AuthStateChange "SIGNED_IN" session2; Timeout])
     = [Called markPatientRegistered;
        Did (ConsoleError "Error marking patient registered via RPC:" err);
        Called markPatientRegistered].
Proof.
  intros Hr Hl.
  destruct s as [em pw cp ld ir pe hm]. cbn in Hr, Hl. subst ir hm.
  split; reflexivity.
Qed.

Lemma rejected_mark_witness :
  hasMarkedRegistration
    (current (exec Sample.browser (rendering Sample.registering)
                   [AuthStateChange "SIGNED_IN" Sample.session; Timeout;
                    Settle 0 (Rejected (Js.Error "network"))]))
  = false.
Proof.
  destruct (rejected_mark_leaves_latch_unset
              Sample.browser Sample.registering Sample.session Sample.session
              (Js.Error "network") eq_refl eq_refl) as [H _].
  rewrite H. reflexivity.
Defined.
